(** * Arduino auto-painter: a shallow embedding of [src/main.cpp]

    The firmware is one control loop over a handful of globals.  It is
    embedded here as explicit state passing: a [Machine] record holds the
    globals and the level of the relay pin, every call into an external
    driver (AccelStepper, Bounce2, Serial, digitalWrite) is recorded as an
    [Event], and whatever the loop reads from the outside world during one
    iteration (the serial line, the two debounced sensors, the drivers'
    [isRunning] answers) is supplied by a [Tick] record. *)

From Stdlib Require Import ZArith String Ascii List Bool Lia.
From stdpp Require Import base list.
Import ListNotations.

Local Open Scope Z_scope.

(** ** Pins and configuration (lines 39-59) *)

Definition PAINT_RELAY_PIN : Z := 4.
Definition X_STEPS_PER_INCH : Z := 127.
Definition Y_STEPS_PER_INCH : Z := 169.
Definition X_SPEED : Z := 5000.
Definition Y_SPEED : Z := 5000.
Definition X_ACCEL : Z := 20000.
Definition Y_ACCEL : Z := 5000.
Definition ROTATION_SPEED : Z := 1000.
Definition ROTATION_ACCEL : Z := 200.
Definition X_HOME_SENSOR_PIN : Z := 12.
Definition Y_HOME_SENSOR_PIN : Z := 8.

(** ** Commands (lines 66-81)

    [value] is a C [float]; every literal of the source has at most three
    decimals, so the field is carried exactly, in thousandths of an inch
    (or of a degree). *)

Record Command := mkCommand {
  type : ascii;
  value : Z;
  sprayOn : bool
}.

Definition MOVE_X (dist : Z) (spray : bool) : Command := mkCommand "X" dist spray.
Definition MOVE_Y (dist : Z) (spray : bool) : Command := mkCommand "Y" dist spray.
Definition ROTATE (deg : Z) : Command := mkCommand "R" deg false.
Definition SPRAY_ON : Command := mkCommand "S" 0 true.
Definition SPRAY_OFF : Command := mkCommand "S" 0 false.

(** ** State (lines 83-99) *)

Inductive SystemState :=
| IDLE
| HOMING_X
| HOMING_Y
| HOMED_WAITING
| EXECUTING_PATTERN
| ERROR
| CYCLE_COMPLETE.

Inductive Level := LOW | HIGH.

(** The globals of the sketch, and the output level of [PAINT_RELAY_PIN]
    (the relay is active-low: [LOW] sprays).  [currentSide] and
    [currentCommand] are C [int]s that start at 0 and are only ever
    incremented or reset to 0, so they are kept as [nat]. *)
Record Machine := mkMachine {
  systemState : SystemState;
  motorsRunning : bool;
  currentSide : nat;
  currentCommand : nat;
  sidesToPaint : list bool;
  paintRelay : Level
}.

Definition set_systemState (s : SystemState) (m : Machine) : Machine :=
  mkMachine s (motorsRunning m) (currentSide m) (currentCommand m)
            (sidesToPaint m) (paintRelay m).
Definition set_motorsRunning (b : bool) (m : Machine) : Machine :=
  mkMachine (systemState m) b (currentSide m) (currentCommand m)
            (sidesToPaint m) (paintRelay m).
Definition set_currentSide (n : nat) (m : Machine) : Machine :=
  mkMachine (systemState m) (motorsRunning m) n (currentCommand m)
            (sidesToPaint m) (paintRelay m).
Definition set_currentCommand (n : nat) (m : Machine) : Machine :=
  mkMachine (systemState m) (motorsRunning m) (currentSide m) n
            (sidesToPaint m) (paintRelay m).
Definition set_sidesToPaint (l : list bool) (m : Machine) : Machine :=
  mkMachine (systemState m) (motorsRunning m) (currentSide m) (currentCommand m)
            l (paintRelay m).
Definition set_paintRelay (v : Level) (m : Machine) : Machine :=
  mkMachine (systemState m) (motorsRunning m) (currentSide m) (currentCommand m)
            (sidesToPaint m) v.

(** ** Calls into the drivers *)

Inductive Axis := AxisX | AxisY | AxisRotation.
Inductive Sensor := XHome | YHome.

(** One constructor per driver entry point the sketch calls.
    [PatternIndex side i] is a ghost event: it marks the read
    [currentPattern[currentCommand]] of line 437, so that it can be said
    which table was indexed, and where. *)
Inductive Event :=
| SensorUpdate (s : Sensor)
| StepperRun (a : Axis)
| StepperMove (a : Axis) (steps : Z)
| StepperMoveTo (a : Axis) (position : Z)
| StepperStop (a : Axis)
| StepperSetCurrentPosition (a : Axis) (position : Z)
| StepperSetMaxSpeed (a : Axis) (speed : Z)
| StepperSetAcceleration (a : Axis) (accel : Z)
| DigitalWrite (pin : Z) (v : Level)
| SerialPrint (text : string)
| SerialPrintln (text : string)
| SerialBegin (baud : Z)
| PinModeOutput (pin : Z)
| PinModeInputPullup (pin : Z)
| SensorAttach (s : Sensor) (pin : Z)
| SensorInterval (s : Sensor) (ms : Z)
| StepperSetPinsInverted (a : Axis) (directionInvert : bool)
| PatternIndex (side : nat) (index : nat).

(** A piece of the sketch: it updates the globals and calls drivers. *)
Definition Action := Machine -> Machine * list Event.

Definition skip : Action := fun m => (m, []).
Definition emit (e : Event) : Action := fun m => (m, [e]).
Definition assign (f : Machine -> Machine) : Action := fun m => (f m, []).
Definition andThen (a b : Action) : Action := fun m =>
  let (m1, e1) := a m in
  let (m2, e2) := b m1 in
  (m2, e1 ++ e2).

Declare Scope action_scope.
Delimit Scope action_scope with act.
Bind Scope action_scope with Action.
Notation "a ;; b" := (andThen a%act b%act)
  (at level 100, right associativity) : action_scope.
Local Open Scope action_scope.

Definition digitalWrite (pin : Z) (v : Level) : Action :=
  (if Z.eqb pin PAINT_RELAY_PIN then assign (set_paintRelay v) else skip) ;;
  emit (DigitalWrite pin v).

(** ** Pattern tables (lines 123-318) *)

Definition SIDE1_PATTERN : list Command :=
  [ MOVE_X 4500 false;
    SPRAY_ON; MOVE_X 26000 true; SPRAY_OFF; MOVE_Y 4160 false;
    SPRAY_ON; MOVE_X (-26000) true; SPRAY_OFF; MOVE_Y 4160 false;
    SPRAY_ON; MOVE_X 26000 true; SPRAY_OFF; MOVE_Y 4160 false;
    SPRAY_ON; MOVE_X (-26000) true; SPRAY_OFF; MOVE_Y 4160 false;
    SPRAY_ON; MOVE_X 26000 true; SPRAY_OFF; MOVE_Y 4160 false;
    SPRAY_ON; MOVE_X (-26000) true; SPRAY_OFF; MOVE_Y 4160 false;
    SPRAY_ON; MOVE_X 26000 true; SPRAY_OFF; MOVE_Y 4160 false;
    SPRAY_ON; MOVE_X (-26000) true; SPRAY_OFF;
    ROTATE 180000 ].

Definition SIDE2_PATTERN : list Command :=
  [ SPRAY_ON; MOVE_X 26000 true; SPRAY_OFF; MOVE_Y (-4160) false;
    SPRAY_ON; MOVE_X (-26000) true; SPRAY_OFF; MOVE_Y (-4160) false;
    SPRAY_ON; MOVE_X 26000 true; SPRAY_OFF; MOVE_Y (-4160) false;
    SPRAY_ON; MOVE_X (-26000) true; SPRAY_OFF; MOVE_Y (-4160) false;
    SPRAY_ON; MOVE_X 26000 true; SPRAY_OFF; MOVE_Y (-4160) false;
    SPRAY_ON; MOVE_X (-26000) true; SPRAY_OFF; MOVE_Y (-4160) false;
    SPRAY_ON; MOVE_X 26000 true; SPRAY_OFF; MOVE_Y (-4160) false;
    SPRAY_ON; MOVE_X (-26000) true; SPRAY_OFF;
    MOVE_X (-4500) false;
    ROTATE 90000 ].

Definition SIDE3_PATTERN : list Command :=
  [ MOVE_Y 4500 false;
    SPRAY_ON; MOVE_X 35000 true; SPRAY_OFF; MOVE_Y 4415 false;
    SPRAY_ON; MOVE_X (-35000) true; SPRAY_OFF; MOVE_Y 4415 false;
    SPRAY_ON; MOVE_X 35000 true; SPRAY_OFF; MOVE_Y 4415 false;
    SPRAY_ON; MOVE_X (-35000) true; SPRAY_OFF; MOVE_Y 4415 false;
    SPRAY_ON; MOVE_X 35000 true; SPRAY_OFF; MOVE_Y 4415 false;
    SPRAY_ON; MOVE_X (-35000) true; SPRAY_OFF;
    ROTATE 180000 ].

Definition SIDE4_PATTERN : list Command :=
  [ SPRAY_ON; MOVE_X 35000 true; SPRAY_OFF; MOVE_Y (-4415) false;
    SPRAY_ON; MOVE_X (-35000) true; SPRAY_OFF; MOVE_Y (-4415) false;
    SPRAY_ON; MOVE_X 35000 true; SPRAY_OFF; MOVE_Y (-4415) false;
    SPRAY_ON; MOVE_X (-35000) true; SPRAY_OFF; MOVE_Y (-4415) false;
    SPRAY_ON; MOVE_X 35000 true; SPRAY_OFF; MOVE_Y (-4415) false;
    SPRAY_ON; MOVE_X (-35000) true; SPRAY_OFF;
    MOVE_Y (-4500) false ].

Definition SIDE1_SIZE : nat := length SIDE1_PATTERN.
Definition SIDE2_SIZE : nat := length SIDE2_PATTERN.
Definition SIDE3_SIZE : nat := length SIDE3_PATTERN.
Definition SIDE4_SIZE : nat := length SIDE4_PATTERN.

(** ** executeCommand (lines 321-341)

    The step count handed to [move] is the float product converted to
    [long], that is truncated toward zero; it is computed here on the exact
    value, without the rounding of single-precision arithmetic.  Nothing
    below depends on the step counts. *)

Definition toLong (thousandths : Z) : Z := Z.quot thousandths 1000.

Definition executeCommand (cmd : Command) : Action :=
  if Ascii.eqb (type cmd) "X" then
    (if sprayOn cmd then digitalWrite PAINT_RELAY_PIN LOW else skip) ;;
    emit (StepperMove AxisX (toLong (value cmd * X_STEPS_PER_INCH)))
  else if Ascii.eqb (type cmd) "Y" then
    (if sprayOn cmd then digitalWrite PAINT_RELAY_PIN LOW else skip) ;;
    emit (StepperMove AxisY (toLong (value cmd * Y_STEPS_PER_INCH)))
  else if Ascii.eqb (type cmd) "R" then
    emit (StepperMove AxisRotation (Z.quot (value cmd * 5000) (360 * 1000)))
  else if Ascii.eqb (type cmd) "S" then
    digitalWrite PAINT_RELAY_PIN (if sprayOn cmd then LOW else HIGH)
  else skip.

(** ** setup (lines 343-375) *)

(** The globals as their initialisers leave them (lines 95-99); the level
    of the relay pin before [setup] runs is not known. *)
Definition powerOn (relay : Level) : Machine :=
  mkMachine IDLE false 0 0 [true; true; true; true] relay.

Definition setup : Action :=
  emit (SerialBegin 115200) ;;
  emit (PinModeOutput PAINT_RELAY_PIN) ;;
  digitalWrite PAINT_RELAY_PIN HIGH ;;
  emit (PinModeInputPullup X_HOME_SENSOR_PIN) ;;
  emit (PinModeInputPullup Y_HOME_SENSOR_PIN) ;;
  emit (SensorAttach XHome X_HOME_SENSOR_PIN) ;;
  emit (SensorAttach YHome Y_HOME_SENSOR_PIN) ;;
  emit (SensorInterval XHome 10) ;;
  emit (SensorInterval YHome 10) ;;
  emit (StepperSetMaxSpeed AxisX 500) ;;
  emit (StepperSetAcceleration AxisX X_ACCEL) ;;
  emit (StepperSetPinsInverted AxisX true) ;;
  emit (StepperSetMaxSpeed AxisY 500) ;;
  emit (StepperSetAcceleration AxisY Y_ACCEL) ;;
  emit (StepperSetPinsInverted AxisY false) ;;
  emit (StepperSetMaxSpeed AxisRotation ROTATION_SPEED) ;;
  emit (StepperSetAcceleration AxisRotation ROTATION_ACCEL) ;;
  emit (SerialPrintln "CNC Paint Sprayer Ready") ;;
  emit (SerialPrintln "Commands:") ;;
  emit (SerialPrintln "H - Home") ;;
  emit (SerialPrintln "S - Start") ;;
  emit (SerialPrintln "E - Stop") ;;
  emit (SerialPrintln "R - Reset") ;;
  emit (SerialPrintln "12/13/14/23/24/34 etc. - Select sides to paint").

(** The machine when [loop] is entered for the first time. *)
Definition booted (relay : Level) : Machine := fst (setup (powerOn relay)).

(** ** parseSideSelection (lines 377-390) *)

(** [sidesToPaint[i]], for an index the source keeps below 4. *)
Definition sideSelected (sides : list bool) (i : nat) : bool :=
  match sides !! i with
  | Some b => b
  | None => false
  end.

(** One round of the second loop: [side = input.charAt(i) - '0'], and the
    store when [side] is between 1 and 4.  The character is taken as its
    code 0..255; where [char] is signed the codes from 128 up are negative
    instead, and [side] is outside 1..4 either way. *)
Definition markSide (sides : list bool) (c : ascii) : list bool :=
  let side := Z.of_nat (nat_of_ascii c) - 48 in
  if (1 <=? side) && (side <=? 4)
  then <[Z.to_nat (side - 1) := true]> sides
  else sides.

Definition parseSideSelection (input : string) : Action :=
  assign (fun m =>
    set_sidesToPaint
      (fold_left (fun sides i => <[i := false]> sides) (seq 0 4) (sidesToPaint m)) m) ;;
  assign (fun m =>
    set_sidesToPaint
      (fold_left markSide (list_ascii_of_string input) (sidesToPaint m)) m).

(** ** processPattern (lines 392-444) *)

(** The [while] of line 398.  Every round increments [currentSide] and the
    loop ends once it is 4, so it runs at most four rounds from any
    [currentSide]; [skipSides_exit] below shows that the fuel given in
    [processPattern] is enough. *)
Fixpoint skipSides (fuel : nat) (m : Machine) : Machine :=
  match fuel with
  | O => m
  | S fuel' =>
      if (currentSide m <? 4)%nat && negb (sideSelected (sidesToPaint m) (currentSide m))
      then skipSides fuel'
             (set_currentCommand 0 (set_currentSide (S (currentSide m)) m))
      else m
  end.

(** The [switch] of line 417.  It has no [default]; it is reached only with
    [currentSide] below 4. *)
Definition selectPattern (side : nat) : list Command * nat :=
  match side with
  | 0%nat => (SIDE1_PATTERN, SIDE1_SIZE)
  | 1%nat => (SIDE2_PATTERN, SIDE2_SIZE)
  | 2%nat => (SIDE3_PATTERN, SIDE3_SIZE)
  | 3%nat => (SIDE4_PATTERN, SIDE4_SIZE)
  | _ => ([], 0%nat)
  end.

(** Lines 436-442. *)
Definition stepPattern : Action := fun m =>
  let (currentPattern, patternSize) := selectPattern (currentSide m) in
  if (currentCommand m <? patternSize)%nat then
    (emit (PatternIndex (currentSide m) (currentCommand m)) ;;
     match currentPattern !! currentCommand m with
     | Some cmd => executeCommand cmd
     | None => skip
     end ;;
     assign (fun m' => set_currentCommand (S (currentCommand m')) m')) m
  else
    (assign (set_currentCommand 0) ;;
     assign (fun m' => set_currentSide (S (currentSide m')) m')) m.

Definition processPattern : Action := fun m =>
  if negb (motorsRunning m) then
    let m1 := skipSides 4 m in
    if (4 <=? currentSide m1)%nat then
      (set_systemState CYCLE_COMPLETE m1, [])
    else
      (emit (StepperSetMaxSpeed AxisX X_SPEED) ;;
       emit (StepperSetAcceleration AxisX X_ACCEL) ;;
       emit (StepperSetMaxSpeed AxisY Y_SPEED) ;;
       emit (StepperSetAcceleration AxisY Y_ACCEL) ;;
       stepPattern) m1
  else (m, []).

(** ** The outside world during one iteration of [loop] *)

Record Tick := mkTick {
  (** [None] when [Serial.available()] is 0, otherwise the line
      [Serial.readStringUntil('\n')] returns *)
  serialLine : option string;
  (** [xHomeSensor.read()] and [yHomeSensor.read()] after [update()]:
      [true] is HIGH; the sensors are active-low, so [false] is triggered *)
  xHomeRead : bool;
  yHomeRead : bool;
  (** the three [isRunning()] of lines 450-452, before [run()] *)
  xIsRunning : bool;
  yIsRunning : bool;
  rotationIsRunning : bool;
  (** [stepperX.isRunning()] of line 519 and [stepperY.isRunning()] of
      line 529, after [run()] *)
  xIsRunningLate : bool;
  yIsRunningLate : bool
}.

(** ** Arduino [String] helpers used by [loop] *)

(** C [isspace] in the default locale *)
Definition isspace (c : ascii) : bool :=
  let n := nat_of_ascii c in
  (n =? 32)%nat || ((9 <=? n)%nat && (n <=? 13)%nat).

Fixpoint dropSpaces (l : list ascii) : list ascii :=
  match l with
  | [] => []
  | c :: r => if isspace c then dropSpaces r else l
  end.

(** [String::trim]: leading and trailing white space removed *)
Definition trim (s : string) : string :=
  string_of_list_ascii
    (rev (dropSpaces (rev (dropSpaces (list_ascii_of_string s))))).

(** [String::charAt]: the character, or 0 out of range *)
Definition charAt (s : string) (i : nat) : ascii :=
  match String.get i s with
  | Some c => c
  | None => Ascii.zero
  end.

(** ** loop (lines 446-551) *)

(** The printing loop of lines 500-507. *)
Definition printSelection : Action := fun m =>
  (emit (SerialPrint "Selected sides to paint: ") ;;
   fold_right
     (fun i rest =>
        (if sideSelected (sidesToPaint m) i
         then emit (SerialPrint (String (ascii_of_nat (48 + (i + 1))) EmptyString)) ;;
              emit (SerialPrint " ")
         else skip) ;; rest)
     skip (seq 0 4) ;;
   emit (SerialPrintln "")) m.

(** Lines 481-488. *)
Definition emergencyStop : Action :=
  assign (set_systemState ERROR) ;;
  digitalWrite PAINT_RELAY_PIN HIGH ;;
  emit (StepperStop AxisX) ;;
  emit (StepperStop AxisY) ;;
  emit (StepperStop AxisRotation).

(** The [switch(cmd)] of lines 464-496. *)
Definition singleCommand (cmd : ascii) : Action := fun m =>
  if Ascii.eqb cmd "H" || Ascii.eqb cmd "h" then
    match systemState m with
    | IDLE => (set_systemState HOMING_X m, [])
    | _ => (m, [])
    end
  else if Ascii.eqb cmd "S" || Ascii.eqb cmd "s" then
    match systemState m with
    | HOMED_WAITING =>
        (assign (set_currentSide 0) ;;
         assign (set_currentCommand 0) ;;
         assign (set_systemState EXECUTING_PATTERN)) m
    | _ => (m, [])
    end
  else if Ascii.eqb cmd "E" || Ascii.eqb cmd "e" then
    emergencyStop m
  else if Ascii.eqb cmd "R" || Ascii.eqb cmd "r" then
    match systemState m with
    | ERROR => (set_systemState IDLE m, [])
    | _ => (m, [])
    end
  else (m, []).

(** Lines 458-509, on the trimmed line. *)
Definition handleInput (input : string) : Action :=
  if (String.length input =? 1)%nat then
    singleCommand (charAt input 0)
  else if (2 <=? String.length input)%nat then
    parseSideSelection input ;; printSelection
  else skip.

Definition readSerial (t : Tick) : Action :=
  match serialLine t with
  | Some line => handleInput (trim line)
  | None => skip
  end.

(** The [switch(systemState)] of lines 511-550. *)
Definition stateAction (t : Tick) : Action := fun m =>
  match systemState m with
  | IDLE => (m, [])
  | HOMING_X =>
      if negb (xHomeRead t) then
        (emit (StepperSetCurrentPosition AxisX 0) ;;
         assign (set_systemState HOMING_Y)) m
      else if negb (xIsRunningLate t) then
        emit (StepperMoveTo AxisX (-1000000)) m
      else (m, [])
  | HOMING_Y =>
      if negb (yHomeRead t) then
        (emit (StepperSetCurrentPosition AxisY 0) ;;
         assign (set_systemState HOMED_WAITING) ;;
         emit (SerialPrintln "Homing complete. Enter 'S' to start painting.")) m
      else if negb (yIsRunningLate t) then
        emit (StepperMoveTo AxisY (-1000000)) m
      else (m, [])
  | HOMED_WAITING => (m, [])
  | EXECUTING_PATTERN => processPattern m
  | ERROR => (m, [])
  | CYCLE_COMPLETE =>
      if negb (motorsRunning m) then
        (emit (SerialPrintln "Cycle complete") ;;
         assign (set_systemState IDLE)) m
      else (m, [])
  end.

Definition loop (t : Tick) : Action :=
  emit (SensorUpdate XHome) ;;
  emit (SensorUpdate YHome) ;;
  assign (set_motorsRunning (xIsRunning t || yIsRunning t || rotationIsRunning t)) ;;
  emit (StepperRun AxisX) ;;
  emit (StepperRun AxisY) ;;
  emit (StepperRun AxisRotation) ;;
  readSerial t ;;
  stateAction t.

(** ** Runs *)

(** The machine after the iterations [ticks] *)
Fixpoint final (ticks : list Tick) (m : Machine) : Machine :=
  match ticks with
  | [] => m
  | t :: rest => final rest (fst (loop t m))
  end.

(** Everything these iterations emitted, in order *)
Fixpoint emitted (ticks : list Tick) (m : Machine) : list Event :=
  match ticks with
  | [] => []
  | t :: rest => snd (loop t m) ++ emitted rest (fst (loop t m))
  end.

Definition SystemState_eqb (a b : SystemState) : bool :=
  match a, b with
  | IDLE, IDLE | HOMING_X, HOMING_X | HOMING_Y, HOMING_Y
  | HOMED_WAITING, HOMED_WAITING | EXECUTING_PATTERN, EXECUTING_PATTERN
  | ERROR, ERROR | CYCLE_COMPLETE, CYCLE_COMPLETE => true
  | _, _ => false
  end.

(** How many iterations moved the machine into state [s] from another one *)
Fixpoint entered (s : SystemState) (ticks : list Tick) (m : Machine) : nat :=
  match ticks with
  | [] => 0
  | t :: rest =>
      let m' := fst (loop t m) in
      ((if negb (SystemState_eqb (systemState m) s) && SystemState_eqb (systemState m') s
        then 1 else 0) + entered s rest m')%nat
  end.

(** ** Observations on ticks and events *)

(** The iteration reads the one-character line [c]. *)
Definition receives (t : Tick) (c : ascii) : Prop :=
  exists line, serialLine t = Some line /\ trim line = String c EmptyString.

Definition emergency (t : Tick) : Prop := receives t "E" \/ receives t "e".
Definition home (t : Tick) : Prop := receives t "H" \/ receives t "h".
Definition start (t : Tick) : Prop := receives t "S" \/ receives t "s".
Definition reset (t : Tick) : Prop := receives t "R" \/ receives t "r".

(** The iteration reads a line of two characters or more, which [loop]
    hands to [parseSideSelection]. *)
Definition selects (t : Tick) : Prop :=
  exists line, serialLine t = Some line /\ (2 <= String.length (trim line))%nat.

(** The same iteration with nothing on the serial port *)
Definition withoutSerial (t : Tick) : Tick :=
  mkTick None (xHomeRead t) (yHomeRead t)
         (xIsRunning t) (yIsRunning t) (rotationIsRunning t)
         (xIsRunningLate t) (yIsRunningLate t).

(** Line 450: some axis has motion outstanding at the top of the iteration *)
Definition busy (t : Tick) : bool :=
  xIsRunning t || yIsRunning t || rotationIsRunning t.

(** The iterations of a run that find no axis moving *)
Fixpoint countIdle (ticks : list Tick) : nat :=
  match ticks with
  | [] => 0
  | t :: rest => ((if busy t then 0 else 1) + countIdle rest)%nat
  end.

(** An iteration with no input, no axis moving and no sensor triggered *)
Definition idleTick : Tick := mkTick None true true false false false false false.

(** The driver calls every iteration starts with (lines 447-456) *)
Definition polling : list Event :=
  [SensorUpdate XHome; SensorUpdate YHome;
   StepperRun AxisX; StepperRun AxisY; StepperRun AxisRotation].

(** The speed settings every advance that does not end the cycle repeats
    (lines 411-415) *)
Definition speedSettings : list Event :=
  [StepperSetMaxSpeed AxisX X_SPEED; StepperSetAcceleration AxisX X_ACCEL;
   StepperSetMaxSpeed AxisY Y_SPEED; StepperSetAcceleration AxisY Y_ACCEL].

(** The table reads among the events: (side, index) *)
Fixpoint indexed (evs : list Event) : list (nat * nat) :=
  match evs with
  | [] => []
  | PatternIndex side i :: rest => (side, i) :: indexed rest
  | _ :: rest => indexed rest
  end.

(** The commands to the axes among the events *)
Fixpoint motion (evs : list Event) : list Event :=
  match evs with
  | [] => []
  | e :: rest =>
      match e with
      | StepperMove _ _ | StepperMoveTo _ _ | StepperStop _
      | StepperSetCurrentPosition _ _ => e :: motion rest
      | _ => motion rest
      end
  end.

(** The table reads of one full pass over side [side] (counted from 0) *)
Definition sidePass (side : nat) : list (nat * nat) :=
  map (pair side) (seq 0 (snd (selectPattern side))).

(** The command a table read returns: [currentPattern[currentCommand]]
    for the table the [switch] takes on that side *)
Definition commandAt (p : nat * nat) : option Command :=
  fst (selectPattern (fst p)) !! snd p.

(** The table reads of a whole cycle under the selection [sel] *)
Definition cyclePass (sel : list bool) : list (nat * nat) :=
  concat (map (fun side => if sideSelected sel side then sidePass side else [])
              (seq 0 4)).

(** Idle iterations a cycle takes: one per command and one more per
    selected side, one to find the sides exhausted, one to leave
    [CYCLE_COMPLETE] *)
Definition cycleTicks (sel : list bool) : nat :=
  (list_sum (map (fun side => if sideSelected sel side
                              then S (snd (selectPattern side)) else 0)
                 (seq 0 4)) + 2)%nat.

Definition isSprayOff (cmd : Command) : bool :=
  Ascii.eqb (type cmd) "S" && negb (sprayOn cmd).

(** Nothing on the serial port *)
Definition quiet (t : Tick) : Prop := serialLine t = None.

Definition nonHoming (m : Machine) : Prop :=
  systemState m <> HOMING_X /\ systemState m <> HOMING_Y.

(** The machine "start" leaves, before the sequencer has advanced *)
Definition cycleStart (sel : list bool) (relay : Level) : Machine :=
  mkMachine EXECUTING_PATTERN false 0 0 sel relay.

(** Where a cycle stands after [n] idle iterations: still executing, with
    the table reads so far a prefix of the cycle's; or in [CYCLE_COMPLETE],
    entered once, with all of them done; or back in [IDLE]. *)
Definition cycleCheck (sel : list bool) (relay : Level) (n : nat) : bool :=
  let m := cycleStart sel relay in
  let ticks := repeat idleTick n in
  let idx := indexed (emitted ticks m) in
  let cc := entered CYCLE_COMPLETE ticks m in
  match systemState (final ticks m) with
  | EXECUTING_PATTERN =>
      bool_decide (idx `prefix_of` cyclePass sel) && (cc =? 0)%nat
      && (S n <? cycleTicks sel)%nat
  | CYCLE_COMPLETE =>
      bool_decide (idx = cyclePass sel) && (cc =? 1)%nat
      && (S n =? cycleTicks sel)%nat
  | IDLE =>
      bool_decide (idx = cyclePass sel) && (cc =? 1)%nat
      && (cycleTicks sel <=? n)%nat
  | _ => false
  end.

(** The same as a proposition, on the state [st], the table reads [idx]
    and the count [cc] of entries into [CYCLE_COMPLETE] after [n] idle
    iterations *)
Definition standing (sel : list bool) (st : SystemState)
    (idx : list (nat * nat)) (cc n : nat) : Prop :=
  (st = EXECUTING_PATTERN /\ idx `prefix_of` cyclePass sel /\ cc = 0%nat /\
   (S n < cycleTicks sel)%nat) \/
  (st = CYCLE_COMPLETE /\ idx = cyclePass sel /\ cc = 1%nat /\
   S n = cycleTicks sel) \/
  (st = IDLE /\ idx = cyclePass sel /\ cc = 1%nat /\ (cycleTicks sel <= n)%nat).

(** The side selection has the digit of side [i] (counted from 1) *)
Definition hasDigit (input : string) (i : nat) : bool :=
  existsb (Ascii.eqb (ascii_of_nat (48 + i))) (list_ascii_of_string input).

(** ** The sequencer as the specification words it (section 4.3)

    Step 1: while sideIndex < 4 and the side is not selected, increment
    sideIndex and reset commandIndex.  Step 2: if sideIndex is 4, signal
    cycle complete and stop.  Step 3: otherwise execute the one command at
    (sideIndex, commandIndex) and increment commandIndex.  Step 4: if
    commandIndex reaches the side's pattern length, reset commandIndex and
    increment sideIndex. *)

Fixpoint spec_skip (fuel : nat) (m : Machine) : Machine :=
  match fuel with
  | O => m
  | S fuel' =>
      if (currentSide m <? 4)%nat && negb (sideSelected (sidesToPaint m) (currentSide m))
      then spec_skip fuel'
             (set_currentCommand 0 (set_currentSide (S (currentSide m)) m))
      else m
  end.

Definition spec_advance : Action := fun m =>
  let m1 := spec_skip 4 m in
  if (currentSide m1 =? 4)%nat then
    (set_systemState CYCLE_COMPLETE m1, [])
  else
    let (pattern, size) := selectPattern (currentSide m1) in
    (emit (PatternIndex (currentSide m1) (currentCommand m1)) ;;
     match pattern !! currentCommand m1 with
     | Some cmd => executeCommand cmd
     | None => skip
     end ;;
     assign (fun m' => set_currentCommand (S (currentCommand m')) m') ;;
     (fun m' =>
        if (currentCommand m' =? size)%nat
        then (set_currentSide (S (currentSide m')) (set_currentCommand 0 m'), [])
        else (m', []))) m1.

(** The sequencer cursor *)
Definition cursor (m : Machine) : nat * nat := (currentSide m, currentCommand m).

(** ** Well-formed machines *)

(** [sidesToPaint] has its four entries, [currentSide] is at most 4 and
    [currentCommand] at most the size of the table of [currentSide] (0 once
    [currentSide] is 4). *)
Definition wellFormed (m : Machine) : Prop :=
  length (sidesToPaint m) = 4%nat /\
  (currentSide m <= 4)%nat /\
  (currentCommand m <= snd (selectPattern (currentSide m)))%nat.

(** The same iteration reading the line [line] *)
Definition withLine (line : string) (t : Tick) : Tick :=
  mkTick (Some line) (xHomeRead t) (yHomeRead t)
         (xIsRunning t) (yIsRunning t) (rotationIsRunning t)
         (xIsRunningLate t) (yIsRunningLate t).

(** After [n] idle iterations of a cycle begun with the relay released:
    the relay is released unless the cycle is still executing. *)
Definition sprayOffCheck (sel : list bool) (n : nat) : bool :=
  let m := final (repeat idleTick n) (cycleStart sel HIGH) in
  match systemState m, paintRelay m with
  | EXECUTING_PATTERN, _ => true
  | _, HIGH => true
  | _, LOW => false
  end.

(** The characters [loop] takes as commands *)
Definition commandChars : list ascii :=
  ["H"; "h"; "S"; "s"; "E"; "e"; "R"; "r"]%char.

Local Close Scope Z_scope.

(** * Properties *)

(** ** Shape of one iteration *)

Lemma loop_eq (t : Tick) (m : Machine) :
  loop t m =
  (fst (stateAction t (fst (readSerial t (set_motorsRunning (busy t) m)))),
   polling ++ snd (readSerial t (set_motorsRunning (busy t) m))
           ++ snd (stateAction t (fst (readSerial t (set_motorsRunning (busy t) m))))).
Proof.
  unfold loop, andThen, emit, assign, busy, polling.
  destruct (readSerial t _) as [m1 e1]; simpl.
  destruct (stateAction t m1) as [m2 e2]; reflexivity.
Qed.

Lemma readSerial_none (t : Tick) (m : Machine) :
  serialLine t = None -> readSerial t m = (m, []).
Proof. intros H; unfold readSerial; rewrite H; reflexivity. Qed.

Lemma readSerial_receives (t : Tick) (c : ascii) (m : Machine) :
  receives t c -> readSerial t m = singleCommand c m.
Proof.
  intros (line & Hl & Ht); unfold readSerial; rewrite Hl, Ht; reflexivity.
Qed.

Lemma loop_withoutSerial (t : Tick) (m : Machine) :
  readSerial t (set_motorsRunning (busy t) m) = (set_motorsRunning (busy t) m, []) ->
  loop t m = loop (withoutSerial t) m.
Proof.
  intros H; rewrite !loop_eq.
  change (busy (withoutSerial t)) with (busy t).
  rewrite (readSerial_none (withoutSerial t)) by reflexivity.
  rewrite H; reflexivity.
Qed.

Lemma singleCommand_emergency (c : ascii) (m : Machine) :
  c = "E"%char \/ c = "e"%char ->
  singleCommand c m =
  (set_paintRelay HIGH (set_systemState ERROR m),
   [DigitalWrite PAINT_RELAY_PIN HIGH;
    StepperStop AxisX; StepperStop AxisY; StepperStop AxisRotation]).
Proof. intros [-> | ->]; reflexivity. Qed.

Lemma readSerial_emergency (t : Tick) (m : Machine) :
  emergency t ->
  readSerial t m =
  (set_paintRelay HIGH (set_systemState ERROR m),
   [DigitalWrite PAINT_RELAY_PIN HIGH;
    StepperStop AxisX; StepperStop AxisY; StepperStop AxisRotation]).
Proof.
  intros [H | H]; rewrite (readSerial_receives _ _ _ H);
    apply singleCommand_emergency; auto.
Qed.

(** ** Emergency stop *)

(** C1: in every state, the iteration that reads the emergency command ends
    in [ERROR] with the relay pin at its inactive level, and the calls it
    makes are the polling every iteration starts with, the write that
    releases the relay and a [stop] on each of the three axes, nothing
    after them. *)
Theorem C1_emergency_stops_in_every_state (m : Machine) (t : Tick) :
  emergency t ->
  systemState (fst (loop t m)) = ERROR /\
  paintRelay (fst (loop t m)) = HIGH /\
  snd (loop t m) =
    polling ++ [DigitalWrite PAINT_RELAY_PIN HIGH;
                StepperStop AxisX; StepperStop AxisY; StepperStop AxisRotation].
Proof.
  intros H. rewrite loop_eq, (readSerial_emergency _ _ H). simpl. auto.
Qed.

Lemma C1_witness :
  let t := mkTick (Some "E"%string) true true true false true false false in
  let m := mkMachine EXECUTING_PATTERN true 1 2 [true; false; true; false] LOW in
  emergency t /\
  systemState (fst (loop t m)) = ERROR /\
  paintRelay (fst (loop t m)) = HIGH /\
  snd (loop t m) =
    polling ++ [DigitalWrite PAINT_RELAY_PIN HIGH;
                StepperStop AxisX; StepperStop AxisY; StepperStop AxisRotation].
Proof.
  intros t m.
  assert (He : emergency t) by (left; exists "E"%string; split; reflexivity).
  split; [exact He | exact (C1_emergency_stops_in_every_state m t He)].
Defined.

(** ** Guarded commands *)

Lemma singleCommand_guarded (c : ascii) (m : Machine) :
  ((c = "H"%char \/ c = "h"%char) /\ systemState m <> IDLE) \/
  ((c = "S"%char \/ c = "s"%char) /\ systemState m <> HOMED_WAITING) \/
  ((c = "R"%char \/ c = "r"%char) /\ systemState m <> ERROR) ->
  singleCommand c m = (m, []).
Proof.
  intros [[[-> | ->] H] | [[[-> | ->] H] | [[-> | ->] H]]];
    unfold singleCommand; simpl; destruct (systemState m); congruence.
Qed.

(** C2: "home" outside [IDLE], "start" outside [HOMED_WAITING] and "reset"
    outside [ERROR] are dropped: handling the line changes nothing and
    calls nothing (no print either), and the whole iteration is the one
    that would have run with nothing on the serial port. *)
Theorem C2_guarded_commands_ignored (m : Machine) (t : Tick) :
  (home t /\ systemState m <> IDLE) \/
  (start t /\ systemState m <> HOMED_WAITING) \/
  (reset t /\ systemState m <> ERROR) ->
  readSerial t m = (m, []) /\
  loop t m = loop (withoutSerial t) m.
Proof.
  intros H.
  assert (G : forall m', systemState m' = systemState m -> readSerial t m' = (m', [])).
  { intros m' E.
    destruct H as [[[R | R] H] | [[[R | R] H] | [[R | R] H]]];
      rewrite (readSerial_receives _ _ _ R); apply singleCommand_guarded;
      rewrite E; intuition. }
  split; [apply G; reflexivity | apply loop_withoutSerial, G; reflexivity].
Qed.

Lemma C2_witness :
  let t := mkTick (Some "h"%string) true true false false false false false in
  let m := mkMachine EXECUTING_PATTERN false 1 2 [true; false; true; false] LOW in
  readSerial t m = (m, []) /\ loop t m = loop (withoutSerial t) m.
Proof.
  intros t m. apply C2_guarded_commands_ignored.
  left; split; [right; exists "h"%string; split; reflexivity | discriminate].
Defined.

(** ** The sequencer *)

(** What [skipSides] leaves: everything but the cursor is as before, the
    sides passed over are unselected ones, and [commandIndex] is 0 as soon
    as one was passed over. *)
Lemma skipSides_spec (fuel : nat) (m : Machine) :
  let m1 := skipSides fuel m in
  systemState m1 = systemState m /\
  motorsRunning m1 = motorsRunning m /\
  sidesToPaint m1 = sidesToPaint m /\
  paintRelay m1 = paintRelay m /\
  currentSide m <= currentSide m1 /\
  (forall i, currentSide m <= i < currentSide m1 ->
             i < 4 /\ sideSelected (sidesToPaint m) i = false) /\
  (currentSide m1 = currentSide m -> m1 = m) /\
  (currentSide m < currentSide m1 -> currentCommand m1 = 0).
Proof.
  revert m; induction fuel as [| fuel IH]; intros m; simpl.
  - repeat split; auto; intros; lia.
  - destruct (currentSide m <? 4) eqn:Hlt; simpl;
      [ destruct (sideSelected (sidesToPaint m) (currentSide m)) eqn:Hsel; simpl |];
      try (repeat split; auto; intros; lia).
    apply Nat.ltb_lt in Hlt.
    specialize (IH (set_currentCommand 0 (set_currentSide (S (currentSide m)) m))).
    simpl in IH. destruct IH as (E1 & E2 & E3 & E4 & Hle & Hskip & Hsame & Hzero).
    repeat split; auto; try lia.
    + destruct (Nat.eq_dec i (currentSide m)) as [-> | Hne]; [lia |].
      apply Hskip; lia.
    + destruct (Nat.eq_dec i (currentSide m)) as [-> | Hne]; [exact Hsel |].
      apply Hskip; lia.
    + intros _. destruct (Nat.eq_dec (currentSide (skipSides fuel
        (set_currentCommand 0 (set_currentSide (S (currentSide m)) m))))
        (S (currentSide m))) as [E | E].
      * rewrite (Hsame E); reflexivity.
      * apply Hzero; lia.
Qed.

(** The fuel is enough: when [skipSides] returns, the condition of the
    [while] is false. *)
Lemma skipSides_exit_gen (fuel : nat) (m : Machine) :
  4 <= currentSide m + fuel ->
  4 <= currentSide (skipSides fuel m) \/
  sideSelected (sidesToPaint (skipSides fuel m)) (currentSide (skipSides fuel m)) = true.
Proof.
  revert m; induction fuel as [| fuel IH]; intros m Hf; simpl.
  - left; lia.
  - destruct (currentSide m <? 4) eqn:Hlt; simpl.
    + destruct (sideSelected (sidesToPaint m) (currentSide m)) eqn:Hsel; simpl.
      * right; exact Hsel.
      * apply IH; simpl; lia.
    + apply Nat.ltb_ge in Hlt; left; exact Hlt.
Qed.

Lemma skipSides_exit (m : Machine) :
  4 <= currentSide (skipSides 4 m) \/
  sideSelected (sidesToPaint (skipSides 4 m)) (currentSide (skipSides 4 m)) = true.
Proof. apply skipSides_exit_gen; lia. Qed.

Lemma size_is_length (side : nat) :
  snd (selectPattern side) = length (fst (selectPattern side)).
Proof. do 4 (destruct side as [| side]; [reflexivity |]); reflexivity. Qed.

Lemma stepPattern_execute (m : Machine) (cmd : Command) :
  fst (selectPattern (currentSide m)) !! currentCommand m = Some cmd ->
  stepPattern m =
  (set_currentCommand (S (currentCommand m)) (fst (executeCommand cmd m)),
   PatternIndex (currentSide m) (currentCommand m) :: snd (executeCommand cmd m)).
Proof.
  intros Hc. unfold stepPattern.
  pose proof (size_is_length (currentSide m)) as Hs.
  destruct (selectPattern (currentSide m)) as [pattern size]; simpl in *.
  apply lookup_lt_Some in Hc as Hlt. rewrite <- Hs in Hlt.
  apply Nat.ltb_lt in Hlt; rewrite Hlt, Hc.
  unfold andThen, emit, assign.
  assert (Hcur : currentCommand (fst (executeCommand cmd m)) = currentCommand m).
  { unfold executeCommand, digitalWrite, andThen, emit, assign, skip.
    repeat match goal with |- context [if ?b then _ else _] => destruct b end;
      reflexivity. }
  destruct (executeCommand cmd m) as [m2 e2]; simpl in *.
  rewrite Hcur, app_nil_r; reflexivity.
Qed.

Lemma stepPattern_rollover (m : Machine) :
  snd (selectPattern (currentSide m)) <= currentCommand m ->
  stepPattern m = (set_currentSide (S (currentSide m)) (set_currentCommand 0 m), []).
Proof.
  intros Hge. unfold stepPattern.
  destruct (selectPattern (currentSide m)) as [pattern size]; simpl in *.
  apply Nat.ltb_ge in Hge; rewrite Hge. reflexivity.
Qed.

Arguments skipSides : simpl never.

Lemma processPattern_running (m : Machine) :
  motorsRunning m = true -> processPattern m = (m, []).
Proof. intros H; unfold processPattern; rewrite H; reflexivity. Qed.

Lemma processPattern_idle (m : Machine) :
  motorsRunning m = false ->
  processPattern m =
  if 4 <=? currentSide (skipSides 4 m)
  then (set_systemState CYCLE_COMPLETE (skipSides 4 m), [])
  else (fst (stepPattern (skipSides 4 m)),
        speedSettings ++ snd (stepPattern (skipSides 4 m))).
Proof.
  intros H; unfold processPattern; rewrite H.
  change (negb false) with true; cbv iota zeta.
  destruct (4 <=? currentSide (skipSides 4 m)); [reflexivity |].
  unfold andThen, emit.
  destruct (stepPattern (skipSides 4 m)); reflexivity.
Qed.

(** C4, counterexample: on side 4 (index 3) with the cursor on the last
    command of the table, an advance worded as the specification words it
    leaves the cursor at (4, 0); [processPattern] executes the command and
    leaves it at (3, 24), on the same side. *)
Lemma C4_counterexample :
  let m := mkMachine EXECUTING_PATTERN false 3 23 [true; true; true; true] HIGH in
  S (currentCommand m) = SIDE4_SIZE /\
  cursor (fst (spec_advance m)) = (4, 0) /\
  cursor (fst (processPattern m)) = (3, 24) /\
  cursor (fst (processPattern m)) <> cursor (fst (spec_advance m)).
Proof. vm_compute. repeat split; congruence. Qed.

(** C4, as amended: one advance (a call of [processPattern] with no axis
    moving) first passes over unselected sides, raising [currentSide] and
    zeroing [currentCommand], executing nothing: [currentSide] only moves
    forward, past unselected sides below 4 and no others, to the first side
    that is selected or to 4, and nothing but the cursor changes; if [currentSide] has
    reached 4 it moves to [CYCLE_COMPLETE] and does nothing else; otherwise,
    when [currentCommand] is below the table's length, it executes the one
    command under the cursor and increments [currentCommand], and leaves
    [currentSide] as it is even when [currentCommand] has thereby reached
    the length; the reset of [currentCommand] with the increment of
    [currentSide] is an advance of its own, taken when [currentCommand] is
    at the length, and it executes no command. *)
Theorem C4_advance_steps (m : Machine) :
  motorsRunning m = false ->
  let m1 := skipSides 4 m in
  (* step 1 *)
  ((4 <= currentSide m1 \/ sideSelected (sidesToPaint m1) (currentSide m1) = true) /\
   systemState m1 = systemState m /\ motorsRunning m1 = motorsRunning m /\
   sidesToPaint m1 = sidesToPaint m /\
   paintRelay m1 = paintRelay m /\
   currentSide m <= currentSide m1 /\
   (forall i, currentSide m <= i < currentSide m1 ->
              i < 4 /\ sideSelected (sidesToPaint m) i = false) /\
   (currentSide m1 = currentSide m -> m1 = m) /\
   (currentSide m < currentSide m1 -> currentCommand m1 = 0)) /\
  (* step 2 *)
  (4 <= currentSide m1 ->
   processPattern m = (set_systemState CYCLE_COMPLETE m1, [])) /\
  (* step 3 *)
  (currentSide m1 < 4 ->
   forall cmd, fst (selectPattern (currentSide m1)) !! currentCommand m1 = Some cmd ->
   processPattern m =
     (set_currentCommand (S (currentCommand m1)) (fst (executeCommand cmd m1)),
      speedSettings ++
      PatternIndex (currentSide m1) (currentCommand m1) :: snd (executeCommand cmd m1)) /\
   cursor (fst (processPattern m)) = (currentSide m1, S (currentCommand m1))) /\
  (* step 4 *)
  (currentSide m1 < 4 ->
   snd (selectPattern (currentSide m1)) <= currentCommand m1 ->
   processPattern m =
     (set_currentSide (S (currentSide m1)) (set_currentCommand 0 m1), speedSettings) /\
   indexed (snd (processPattern m)) = []).
Proof.
  intros Hidle m1.
  pose proof (skipSides_spec 4 m) as (E1 & E2 & E3 & E4 & Hle & Hskip & Hsame & Hzero).
  pose proof (skipSides_exit m) as Hexit.
  fold m1 in E1, E2, E3, E4, Hle, Hskip, Hsame, Hzero, Hexit.
  split; [repeat split; auto; apply Hskip; auto |].
  rewrite (processPattern_idle m Hidle). fold m1.
  split; [| split].
  - intros H4. apply Nat.leb_le in H4. rewrite H4. reflexivity.
  - intros Hlt cmd Hcmd.
    assert (Hb : (4 <=? currentSide m1) = false) by (apply Nat.leb_gt; exact Hlt).
    rewrite Hb, (stepPattern_execute m1 cmd Hcmd). simpl.
    split; [reflexivity |].
    unfold cursor; simpl. f_equal.
    unfold executeCommand, digitalWrite, andThen, emit, assign, skip.
    repeat match goal with |- context [if ?b then _ else _] => destruct b end;
      reflexivity.
  - intros Hlt Hge.
    assert (Hb : (4 <=? currentSide m1) = false) by (apply Nat.leb_gt; exact Hlt).
    rewrite Hb, (stepPattern_rollover m1 Hge). simpl.
    split; reflexivity.
Qed.

Lemma C4_witness :
  let m := mkMachine EXECUTING_PATTERN false 0 32 [true; true; true; true] HIGH in
  motorsRunning m = false /\
  processPattern m =
    (set_currentCommand 33 (fst (executeCommand (ROTATE 180000) m)),
     speedSettings ++ PatternIndex 0 32 :: snd (executeCommand (ROTATE 180000) m)) /\
  cursor (fst (processPattern m)) = (0, 33) /\
  processPattern (fst (processPattern m)) =
    (set_currentSide 1 (set_currentCommand 0 (fst (processPattern m))), speedSettings).
Proof.
  intros m.
  pose proof (C4_advance_steps m eq_refl) as (_ & _ & H3 & _).
  pose proof (C4_advance_steps (fst (processPattern m)) eq_refl) as (_ & _ & _ & H4).
  split; [reflexivity |].
  split; [| split].
  - apply (H3 ltac:(vm_compute; lia) (ROTATE 180000) eq_refl).
  - apply (H3 ltac:(vm_compute; lia) (ROTATE 180000) eq_refl).
  - apply (H4 ltac:(vm_compute; lia) ltac:(vm_compute; lia)).
Defined.

(** ** What the pieces leave alone *)

Ltac crush_command :=
  unfold executeCommand, digitalWrite, andThen, emit, assign, skip;
  repeat match goal with |- context [if ?b then _ else _] => destruct b end;
  simpl; auto.

Lemma executeCommand_frame (cmd : Command) (m : Machine) :
  let m' := fst (executeCommand cmd m) in
  systemState m' = systemState m /\ motorsRunning m' = motorsRunning m /\
  currentSide m' = currentSide m /\ currentCommand m' = currentCommand m /\
  sidesToPaint m' = sidesToPaint m.
Proof. crush_command. Qed.

Lemma stepPattern_cases (m : Machine) :
  (exists cmd, fst (selectPattern (currentSide m)) !! currentCommand m = Some cmd /\
     stepPattern m =
       (set_currentCommand (S (currentCommand m)) (fst (executeCommand cmd m)),
        PatternIndex (currentSide m) (currentCommand m) :: snd (executeCommand cmd m))) \/
  stepPattern m = (set_currentSide (S (currentSide m)) (set_currentCommand 0 m), []).
Proof.
  destruct (fst (selectPattern (currentSide m)) !! currentCommand m) as [cmd |] eqn:Hc.
  - left; exists cmd; split; [reflexivity | apply stepPattern_execute, Hc].
  - right; apply stepPattern_rollover.
    rewrite size_is_length. apply lookup_ge_None, Hc.
Qed.

Lemma stepPattern_frame (m : Machine) :
  let m' := fst (stepPattern m) in
  systemState m' = systemState m /\ motorsRunning m' = motorsRunning m /\
  sidesToPaint m' = sidesToPaint m.
Proof.
  destruct (stepPattern_cases m) as [(cmd & _ & ->) | ->]; simpl; auto.
  pose proof (executeCommand_frame cmd m) as H; simpl in H; tauto.
Qed.

Lemma processPattern_frame (m : Machine) :
  let m' := fst (processPattern m) in
  motorsRunning m' = motorsRunning m /\ sidesToPaint m' = sidesToPaint m.
Proof.
  destruct (motorsRunning m) eqn:Hr.
  - rewrite (processPattern_running m Hr); simpl; auto.
  - rewrite (processPattern_idle m Hr).
    pose proof (skipSides_spec 4 m) as (_ & E2 & E3 & _).
    destruct (4 <=? currentSide (skipSides 4 m)); simpl.
    + rewrite E2, E3; auto.
    + pose proof (stepPattern_frame (skipSides 4 m)) as (_ & F2 & F3).
      simpl in F2, F3. rewrite F2, F3, E2, E3; auto.
Qed.

Lemma stateAction_sides (t : Tick) (m : Machine) :
  sidesToPaint (fst (stateAction t m)) = sidesToPaint m.
Proof.
  unfold stateAction. destruct (systemState m); try reflexivity.
  - destruct (xHomeRead t); simpl; [destruct (xIsRunningLate t) |]; reflexivity.
  - destruct (yHomeRead t); simpl; [destruct (yIsRunningLate t) |]; reflexivity.
  - apply processPattern_frame.
  - destruct (motorsRunning m); reflexivity.
Qed.

Lemma singleCommand_sides (c : ascii) (m : Machine) :
  sidesToPaint (fst (singleCommand c m)) = sidesToPaint m.
Proof.
  unfold singleCommand.
  repeat match goal with |- context [if ?b then _ else _] => destruct b end;
    destruct (systemState m); reflexivity.
Qed.

Lemma handleInput_short (input : string) (m : Machine) :
  String.length input < 2 ->
  sidesToPaint (fst (handleInput input m)) = sidesToPaint m.
Proof.
  intros Hlen. unfold handleInput.
  destruct (String.length input =? 1) eqn:H1; [apply singleCommand_sides |].
  assert (H2 : (2 <=? String.length input) = false) by (apply Nat.leb_gt; exact Hlen).
  rewrite H2; reflexivity.
Qed.

(** ** Side selection *)

Lemma reset_sides (sides : list bool) :
  length sides = 4 ->
  fold_left (fun sides i => <[i := false]> sides) (seq 0 4) sides =
  [false; false; false; false].
Proof.
  destruct sides as [| a [| b [| c [| d [| e r]]]]]; simpl; intros H;
    try discriminate; reflexivity.
Qed.

Lemma markSide_spec (a b c d : bool) (ch : ascii) :
  markSide [a; b; c; d] ch =
  [a || Ascii.eqb "1" ch; b || Ascii.eqb "2" ch;
   c || Ascii.eqb "3" ch; d || Ascii.eqb "4" ch].
Proof.
  destruct ch as [[] [] [] [] [] [] [] []]; unfold markSide; simpl;
    rewrite ?orb_false_r, ?orb_true_r; reflexivity.
Qed.

Lemma fold_markSide (chars : list ascii) (a b c d : bool) :
  fold_left markSide chars [a; b; c; d] =
  [a || existsb (Ascii.eqb "1") chars; b || existsb (Ascii.eqb "2") chars;
   c || existsb (Ascii.eqb "3") chars; d || existsb (Ascii.eqb "4") chars].
Proof.
  revert a b c d; induction chars as [| ch chars IH]; intros a b c d; simpl.
  - rewrite !orb_false_r; reflexivity.
  - rewrite markSide_spec, IH, !orb_assoc; reflexivity.
Qed.

Lemma parseSideSelection_spec (input : string) (m : Machine) :
  length (sidesToPaint m) = 4 ->
  parseSideSelection input m =
  (set_sidesToPaint
     [hasDigit input 1; hasDigit input 2; hasDigit input 3; hasDigit input 4] m, []).
Proof.
  intros Hlen. unfold parseSideSelection, andThen, assign.
  cbn [sidesToPaint set_sidesToPaint].
  rewrite (reset_sides _ Hlen), fold_markSide. reflexivity.
Qed.

Lemma printSelection_machine (m : Machine) : fst (printSelection m) = m.
Proof.
  unfold printSelection, andThen, emit, skip; simpl.
  repeat destruct (sideSelected _ _); reflexivity.
Qed.

Lemma handleInput_selection (input : string) (m : Machine) :
  2 <= String.length input ->
  length (sidesToPaint m) = 4 ->
  fst (handleInput input m) =
  set_sidesToPaint
    [hasDigit input 1; hasDigit input 2; hasDigit input 3; hasDigit input 4] m.
Proof.
  intros H2 Hlen. unfold handleInput.
  assert (E1 : (String.length input =? 1) = false) by (apply Nat.eqb_neq; lia).
  apply Nat.leb_le in H2. rewrite E1, H2.
  unfold andThen. rewrite (parseSideSelection_spec _ _ Hlen).
  pose proof (printSelection_machine (set_sidesToPaint
    [hasDigit input 1; hasDigit input 2; hasDigit input 3; hasDigit input 4] m)) as Hp.
  destruct (printSelection _); simpl in *; exact Hp.
Qed.

Lemma hasDigit_In (input : string) (i : nat) :
  hasDigit input i = true <-> In (ascii_of_nat (48 + i)) (list_ascii_of_string input).
Proof.
  unfold hasDigit. rewrite existsb_exists. split.
  - intros (c & Hin & Heq). apply Ascii.eqb_eq in Heq. subst c. exact Hin.
  - intros Hin. exists (ascii_of_nat (48 + i)). split; [exact Hin | apply Ascii.eqb_refl].
Qed.

Lemma dropSpaces_In (c : ascii) (l : list ascii) :
  isspace c = false -> In c (dropSpaces l) <-> In c l.
Proof.
  intros Hc. induction l as [| a l IH]; simpl; [tauto |].
  destruct (isspace a) eqn:Ha; [| simpl; tauto].
  rewrite IH. split; [tauto |]. intros [-> | H]; [congruence | exact H].
Qed.

(** Trimming removes white space only. *)
Lemma trim_In (c : ascii) (line : string) :
  isspace c = false ->
  In c (list_ascii_of_string (trim line)) <-> In c (list_ascii_of_string line).
Proof.
  intros Hc. unfold trim. rewrite list_ascii_of_string_of_list_ascii.
  rewrite <- in_rev, (dropSpaces_In c _ Hc), <- in_rev. apply dropSpaces_In, Hc.
Qed.

Lemma loop_sides_selection (t : Tick) (m : Machine) (line : string) :
  serialLine t = Some line ->
  2 <= String.length (trim line) ->
  length (sidesToPaint m) = 4 ->
  sidesToPaint (fst (loop t m)) =
  [hasDigit (trim line) 1; hasDigit (trim line) 2;
   hasDigit (trim line) 3; hasDigit (trim line) 4].
Proof.
  intros Hl H2 Hlen. rewrite loop_eq; cbn [fst].
  rewrite stateAction_sides. unfold readSerial; rewrite Hl.
  rewrite handleInput_selection; auto.
Qed.

(** C7: a line whose trimmed text has two characters or more sets the
    selection from its digits: side [i] (1 to 4) is selected exactly when
    the digit [i] occurs in the text (in the trimmed text, and just as
    well in the line as received); so other characters count for nothing,
    a repeated digit counts once, a text without any of the four digits
    leaves the four sides unselected, and "13" and "1133" both select
    sides 1 and 3 only. *)
Theorem C7_side_selection (m : Machine) (t : Tick) (line : string) :
  serialLine t = Some line ->
  2 <= String.length (trim line) ->
  length (sidesToPaint m) = 4 ->
  let sides := sidesToPaint (fst (loop t m)) in
  length sides = 4 /\
  (forall i, 1 <= i <= 4 ->
     (sides !! (i - 1) = Some true <->
      In (ascii_of_nat (48 + i)) (list_ascii_of_string (trim line))) /\
     (sides !! (i - 1) = Some true <->
      In (ascii_of_nat (48 + i)) (list_ascii_of_string line))) /\
  ((forall i, 1 <= i <= 4 ->
      ~ In (ascii_of_nat (48 + i)) (list_ascii_of_string (trim line))) ->
   sides = [false; false; false; false]) /\
  (trim line = "13"%string -> sides = [true; false; true; false]) /\
  (trim line = "1133"%string -> sides = [true; false; true; false]).
Proof.
  intros Hl H2 Hlen sides.
  assert (Hs : sides = [hasDigit (trim line) 1; hasDigit (trim line) 2;
                        hasDigit (trim line) 3; hasDigit (trim line) 4])
    by (apply loop_sides_selection; assumption).
  assert (Hi : forall i, 1 <= i <= 4 ->
            sides !! (i - 1) = Some true <-> hasDigit (trim line) i = true).
  { intros i Hi. rewrite Hs.
    assert (Hc : i = 1 \/ i = 2 \/ i = 3 \/ i = 4) by lia.
    destruct Hc as [-> | [-> | [-> | ->]]]; simpl;
      (split; [intros [= ->] | intros ->]; reflexivity). }
  split; [rewrite Hs; reflexivity |].
  split; [| split; [| split]].
  - intros i Hrange.
    assert (Hin : sides !! (i - 1) = Some true <->
                  In (ascii_of_nat (48 + i)) (list_ascii_of_string (trim line)))
      by (rewrite (Hi i Hrange); apply hasDigit_In).
    split; [exact Hin |].
    rewrite Hin. apply trim_In.
    assert (Hc : i = 1 \/ i = 2 \/ i = 3 \/ i = 4) by lia.
    destruct Hc as [-> | [-> | [-> | ->]]]; reflexivity.
  - intros Hnone. rewrite Hs.
    assert (Hf : forall i, 1 <= i <= 4 -> hasDigit (trim line) i = false).
    { intros i Hrange. destruct (hasDigit (trim line) i) eqn:E; [| reflexivity].
      exfalso. apply (Hnone i Hrange), hasDigit_In, E. }
    rewrite !Hf by lia. reflexivity.
  - intros E. rewrite Hs, E. reflexivity.
  - intros E. rewrite Hs, E. reflexivity.
Qed.

Lemma C7_witness :
  let t := mkTick (Some "3x1 "%string) true true false false false false false in
  let m := mkMachine HOMED_WAITING false 0 0 [true; true; true; true] HIGH in
  sidesToPaint (fst (loop t m)) !! 0 = Some true /\
  sidesToPaint (fst (loop t m)) !! 1 <> Some true /\
  sidesToPaint (fst (loop t m)) !! 2 = Some true.
Proof.
  intros t m.
  pose proof (C7_side_selection m t "3x1 "%string eq_refl
                ltac:(vm_compute; lia) eq_refl) as (_ & Hi & _).
  split; [| split].
  - apply (proj2 (Hi 1 ltac:(lia))). vm_compute. tauto.
  - intros H. apply (proj2 (Hi 2 ltac:(lia))) in H. vm_compute in H.
    intuition discriminate.
  - apply (proj2 (Hi 3 ltac:(lia))). vm_compute. tauto.
Defined.

Lemma readSerial_sides (t : Tick) (m : Machine) :
  ~ selects t -> sidesToPaint (fst (readSerial t m)) = sidesToPaint m.
Proof.
  intros Hn. unfold readSerial.
  destruct (serialLine t) as [line |] eqn:Hl; [| reflexivity].
  apply handleInput_short.
  destruct (Nat.lt_ge_cases (String.length (trim line)) 2) as [H | H]; [exact H |].
  exfalso; apply Hn; exists line; auto.
Qed.

Lemma loop_sides (t : Tick) (m : Machine) :
  ~ selects t -> sidesToPaint (fst (loop t m)) = sidesToPaint m.
Proof.
  intros Hn. rewrite loop_eq; cbn [fst].
  rewrite stateAction_sides, (readSerial_sides _ _ Hn). reflexivity.
Qed.

Lemma final_sides (ticks : list Tick) (m : Machine) :
  Forall (fun t => ~ selects t) ticks ->
  sidesToPaint (final ticks m) = sidesToPaint m.
Proof.
  intros H; revert m; induction H as [| t ticks Ht _ IH]; intros m; simpl.
  - reflexivity.
  - rewrite IH. apply loop_sides, Ht.
Qed.

(** C8, counterexample: after start-up, the line "0" leaves the four sides
    selected. *)
Lemma C8_counterexample :
  let t := mkTick (Some "0"%string) true true false false false false false in
  sidesToPaint (fst (loop t (booted HIGH))) = [true; true; true; true] /\
  sidesToPaint (fst (loop t (booted HIGH))) <> [false; false; false; false].
Proof. vm_compute. split; congruence. Qed.

(** C8, as amended: the line "0" has one character, so it is read as a
    command, and it is none of the four: handling it changes nothing, the
    iteration is the one that would have run with no input, and the
    selection is what it was.  A line of two characters without a digit 1
    to 4, such as "00", is what clears the selection. *)
Theorem C8_zero_line (m : Machine) (t : Tick) (line : string) :
  serialLine t = Some line ->
  (trim line = "0"%string ->
   readSerial t m = (m, []) /\
   loop t m = loop (withoutSerial t) m /\
   sidesToPaint (fst (loop t m)) = sidesToPaint m) /\
  (trim line = "00"%string -> length (sidesToPaint m) = 4 ->
   sidesToPaint (fst (loop t m)) = [false; false; false; false]).
Proof.
  intros Hl. split.
  - intros E.
    assert (G : forall m', readSerial t m' = (m', [])).
    { intros m'. unfold readSerial. rewrite Hl, E. reflexivity. }
    split; [apply G |]. split; [apply loop_withoutSerial, G |].
    rewrite (loop_withoutSerial _ _ (G _)). apply loop_sides.
    intros (l & Hs & _); discriminate.
  - intros E Hlen.
    rewrite (loop_sides_selection t m line Hl); [rewrite E; reflexivity | | exact Hlen].
    rewrite E; simpl; lia.
Qed.

Lemma C8_witness :
  let t := mkTick (Some "0"%string) true true false false false false false in
  let t' := mkTick (Some "00"%string) true true false false false false false in
  sidesToPaint (fst (loop t (booted HIGH))) = sidesToPaint (booted HIGH) /\
  sidesToPaint (fst (loop t' (booted HIGH))) = [false; false; false; false].
Proof.
  intros t t'. split.
  - apply (proj1 (C8_zero_line (booted HIGH) t "0"%string eq_refl) eq_refl).
  - apply (proj2 (C8_zero_line (booted HIGH) t' "00"%string eq_refl) eq_refl eq_refl).
Defined.

(** ** Frame of the emergency stop *)

(** C9: the iteration that reads the emergency command leaves a machine
    that differs from the one before in the state, the relay level and the
    [motorsRunning] sample every iteration takes, and the calls it makes
    beyond the polling are the relay write and the three [stop]s: the
    cursor and the selection are as before.  The selection is written by
    no iteration other than one that reads a line of two characters or
    more: over any run without such a line, through any number of cycles,
    it stays what it was. *)
Theorem C9_emergency_frame (m : Machine) (t : Tick) (ticks : list Tick) :
  (emergency t ->
   loop t m =
     (set_paintRelay HIGH (set_systemState ERROR (set_motorsRunning (busy t) m)),
      polling ++ [DigitalWrite PAINT_RELAY_PIN HIGH;
                  StepperStop AxisX; StepperStop AxisY; StepperStop AxisRotation]) /\
   cursor (fst (loop t m)) = cursor m /\
   sidesToPaint (fst (loop t m)) = sidesToPaint m) /\
  (~ selects t -> sidesToPaint (fst (loop t m)) = sidesToPaint m) /\
  (Forall (fun t' => ~ selects t') ticks ->
   sidesToPaint (final ticks m) = sidesToPaint m).
Proof.
  split; [| split; [apply loop_sides | apply final_sides]].
  intros He.
  assert (E : loop t m =
     (set_paintRelay HIGH (set_systemState ERROR (set_motorsRunning (busy t) m)),
      polling ++ [DigitalWrite PAINT_RELAY_PIN HIGH;
                  StepperStop AxisX; StepperStop AxisY; StepperStop AxisRotation])).
  { rewrite loop_eq, (readSerial_emergency _ _ He). reflexivity. }
  rewrite E. repeat split.
Qed.

Lemma C9_witness :
  let t := mkTick (Some "e"%string) true true true false false false false in
  let m := mkMachine EXECUTING_PATTERN true 1 7 [false; true; false; true] LOW in
  let start_ := mkTick (Some "S"%string) true true false false false false false in
  cursor (fst (loop t m)) = (1, 7) /\
  sidesToPaint (fst (loop t m)) = [false; true; false; true] /\
  sidesToPaint (final [start_; idleTick; t; idleTick] m) = [false; true; false; true].
Proof.
  intros t m start_.
  assert (He : emergency t) by (right; exists "e"%string; split; reflexivity).
  pose proof (C9_emergency_frame m t [start_; idleTick; t; idleTick])
    as (H1 & _ & H3).
  destruct (H1 He) as (_ & Hc & Hs).
  split; [exact Hc |]. split; [exact Hs |].
  apply H3. repeat constructor; intros (l & Hl & Hlen); vm_compute in Hl;
    try discriminate; injection Hl as <-; vm_compute in Hlen; lia.
Defined.

(** ** Homing *)

Lemma motion_app (a b : list Event) : motion (a ++ b) = motion a ++ motion b.
Proof.
  induction a as [| e a IH]; simpl; [reflexivity |].
  destruct e; simpl; rewrite IH; reflexivity.
Qed.

Lemma motion_In (e : Event) (evs : list Event) :
  In e evs -> motion [e] = [e] -> In e (motion evs).
Proof.
  intros Hin He. induction evs as [| x evs IH]; [contradiction |].
  change (x :: evs) with ([x] ++ evs). rewrite motion_app. apply in_or_app.
  destruct Hin as [-> | Hin]; [left; rewrite He; left; reflexivity | right; auto].
Qed.

Lemma length_one (s : string) :
  String.length s = 1 -> s = String (charAt s 0) EmptyString.
Proof.
  destruct s as [| c [| c' s]]; simpl; intros H; try discriminate; reflexivity.
Qed.

(** A command other than the emergency stop does nothing to a machine that
    is homing. *)
Lemma singleCommand_homing (c : ascii) (m : Machine) :
  c <> "E"%char -> c <> "e"%char ->
  systemState m = HOMING_X \/ systemState m = HOMING_Y ->
  singleCommand c m = (m, []).
Proof.
  intros HE He Hs. unfold singleCommand.
  destruct (Ascii.eqb_spec c "E"); [contradiction |].
  destruct (Ascii.eqb_spec c "e"); [contradiction |].
  cbn [orb].
  repeat match goal with |- context [if ?b then _ else _] => destruct b end;
    destruct Hs as [Hs | Hs]; rewrite ?Hs; reflexivity.
Qed.

Lemma readSerial_homing (t : Tick) (m : Machine) :
  ~ emergency t ->
  systemState m = HOMING_X \/ systemState m = HOMING_Y ->
  systemState (fst (readSerial t m)) = systemState m /\
  motion (snd (readSerial t m)) = [].
Proof.
  intros Hn Hs. unfold readSerial.
  destruct (serialLine t) as [line |] eqn:Hl; [| split; reflexivity].
  unfold handleInput.
  destruct (String.length (trim line) =? 1) eqn:H1.
  - apply Nat.eqb_eq, length_one in H1.
    rewrite singleCommand_homing; [split; reflexivity | | | exact Hs];
      intros E; apply Hn; [left | right]; exists line; rewrite <- E; auto.
  - destruct (2 <=? String.length (trim line)); [| split; reflexivity].
    unfold andThen, parseSideSelection, printSelection, assign, emit, skip; simpl.
    repeat destruct (sideSelected _ _); simpl; split; reflexivity.
Qed.

(** C5: the homing cases of the [switch]: with the machine homing X, when
    the X sensor reads triggered (low) the X position is set to 0 and the
    state becomes [HOMING_Y]; when it reads untriggered and X is not
    running, X is sent to the absolute target -1000000 and the state
    stays; when X is running nothing is done.  Homing Y is the same,
    towards [HOMED_WAITING].  So it is for the whole iteration, whatever
    line it reads short of the emergency command (which leaves the homing
    state before the [switch]): these are its only commands to the axes,
    no relative move is ever issued and the only target is that
    constant. *)
Theorem C5_homing (m : Machine) (t : Tick) :
  (systemState m = HOMING_X ->
   stateAction t m =
     if negb (xHomeRead t)
     then (set_systemState HOMING_Y m, [StepperSetCurrentPosition AxisX 0])
     else if negb (xIsRunningLate t)
          then (m, [StepperMoveTo AxisX (-1000000)])
          else (m, [])) /\
  (systemState m = HOMING_Y ->
   stateAction t m =
     if negb (yHomeRead t)
     then (set_systemState HOMED_WAITING m,
           [StepperSetCurrentPosition AxisY 0;
            SerialPrintln "Homing complete. Enter 'S' to start painting."])
     else if negb (yIsRunningLate t)
          then (m, [StepperMoveTo AxisY (-1000000)])
          else (m, [])) /\
  (~ emergency t ->
  let m' := fst (loop t m) in
  let evs := snd (loop t m) in
  (systemState m = HOMING_X ->
   (xHomeRead t = false ->
    systemState m' = HOMING_Y /\ motion evs = [StepperSetCurrentPosition AxisX 0]) /\
   (xHomeRead t = true -> xIsRunningLate t = false ->
    systemState m' = HOMING_X /\ motion evs = [StepperMoveTo AxisX (-1000000)]) /\
   (xHomeRead t = true -> xIsRunningLate t = true ->
    systemState m' = HOMING_X /\ motion evs = [])) /\
  (systemState m = HOMING_Y ->
   (yHomeRead t = false ->
    systemState m' = HOMED_WAITING /\ motion evs = [StepperSetCurrentPosition AxisY 0]) /\
   (yHomeRead t = true -> yIsRunningLate t = false ->
    systemState m' = HOMING_Y /\ motion evs = [StepperMoveTo AxisY (-1000000)]) /\
   (yHomeRead t = true -> yIsRunningLate t = true ->
    systemState m' = HOMING_Y /\ motion evs = [])) /\
  (systemState m = HOMING_X \/ systemState m = HOMING_Y ->
   (forall a d, ~ In (StepperMove a d) evs) /\
   (forall a p, In (StepperMoveTo a p) evs -> p = (-1000000)%Z))).
Proof.
  split; [| split].
  { intros Hs. unfold stateAction. rewrite Hs.
    destruct (xHomeRead t); [destruct (xIsRunningLate t) |]; reflexivity. }
  { intros Hs. unfold stateAction. rewrite Hs.
    destruct (yHomeRead t); [destruct (yIsRunningLate t) |]; reflexivity. }
  intros Hn m' evs.
  assert (Hcases : systemState m = HOMING_X \/ systemState m = HOMING_Y ->
    systemState m' = systemState (fst (stateAction t (fst (readSerial t
                       (set_motorsRunning (busy t) m))))) /\
    motion evs = motion (snd (stateAction t (fst (readSerial t
                       (set_motorsRunning (busy t) m))))) /\
    systemState (fst (readSerial t (set_motorsRunning (busy t) m))) = systemState m).
  { intros Hs. subst m' evs. rewrite loop_eq. cbn [fst snd].
    destruct (readSerial_homing t (set_motorsRunning (busy t) m) Hn Hs) as (E1 & E2).
    rewrite !motion_app, E2. auto. }
  assert (HX : systemState m = HOMING_X ->
    (xHomeRead t = false ->
     systemState m' = HOMING_Y /\ motion evs = [StepperSetCurrentPosition AxisX 0]) /\
    (xHomeRead t = true -> xIsRunningLate t = false ->
     systemState m' = HOMING_X /\ motion evs = [StepperMoveTo AxisX (-1000000)]) /\
    (xHomeRead t = true -> xIsRunningLate t = true ->
     systemState m' = HOMING_X /\ motion evs = [])).
  { intros Hs. destruct (Hcases (or_introl Hs)) as (-> & -> & E).
    unfold stateAction. rewrite E, Hs.
    split; [| split]; [intros H1 | intros H1 H2 | intros H1 H2];
      rewrite H1, ?H2; simpl; rewrite ?E, ?Hs; auto. }
  assert (HY : systemState m = HOMING_Y ->
    (yHomeRead t = false ->
     systemState m' = HOMED_WAITING /\ motion evs = [StepperSetCurrentPosition AxisY 0]) /\
    (yHomeRead t = true -> yIsRunningLate t = false ->
     systemState m' = HOMING_Y /\ motion evs = [StepperMoveTo AxisY (-1000000)]) /\
    (yHomeRead t = true -> yIsRunningLate t = true ->
     systemState m' = HOMING_Y /\ motion evs = [])).
  { intros Hs. destruct (Hcases (or_intror Hs)) as (-> & -> & E).
    unfold stateAction. rewrite E, Hs.
    split; [| split]; [intros H1 | intros H1 H2 | intros H1 H2];
      rewrite H1, ?H2; simpl; rewrite ?E, ?Hs; auto. }
  split; [exact HX |]. split; [exact HY |].
  intros Hs.
  assert (Hm : motion evs = [] \/
               (exists a, motion evs = [StepperSetCurrentPosition a 0]) \/
               (exists a, motion evs = [StepperMoveTo a (-1000000)])).
  { destruct Hs as [Hs | Hs].
    - destruct (HX Hs) as (A & B & C).
      destruct (xHomeRead t); [destruct (xIsRunningLate t) |].
      + left; apply C; reflexivity.
      + right; right; exists AxisX; apply B; reflexivity.
      + right; left; exists AxisX; apply A; reflexivity.
    - destruct (HY Hs) as (A & B & C).
      destruct (yHomeRead t); [destruct (yIsRunningLate t) |].
      + left; apply C; reflexivity.
      + right; right; exists AxisY; apply B; reflexivity.
      + right; left; exists AxisY; apply A; reflexivity. }
  split.
  - intros a d Hin. apply motion_In in Hin; [| reflexivity].
    destruct Hm as [E | [(a' & E) | (a' & E)]]; rewrite E in Hin; simpl in Hin;
      [contradiction | |]; destruct Hin as [Hin | []]; discriminate.
  - intros a p Hin. apply motion_In in Hin; [| reflexivity].
    destruct Hm as [E | [(a' & E) | (a' & E)]]; rewrite E in Hin; simpl in Hin;
      [contradiction | |]; destruct Hin as [Hin | []]; congruence.
Qed.

Lemma C5_witness :
  let m := mkMachine HOMING_X false 0 0 [true; true; true; true] HIGH in
  let seek := mkTick None true true false false false false false in
  let hit := mkTick (Some "24"%string) false true true false false true false in
  (systemState (fst (loop seek m)) = HOMING_X /\
   motion (snd (loop seek m)) = [StepperMoveTo AxisX (-1000000)]) /\
  (systemState (fst (loop hit m)) = HOMING_Y /\
   motion (snd (loop hit m)) = [StepperSetCurrentPosition AxisX 0]).
Proof.
  intros m seek hit.
  assert (Hseek : ~ emergency seek)
    by (intros [(l & Hl & _) | (l & Hl & _)]; discriminate).
  assert (Hhit : ~ emergency hit)
    by (intros [(l & Hl & Ht) | (l & Hl & Ht)]; injection Hl as <-; discriminate).
  split.
  - apply (proj1 (proj2 (proj2 (C5_homing m seek)) Hseek) eq_refl); reflexivity.
  - apply (proj1 (proj2 (proj2 (C5_homing m hit)) Hhit) eq_refl); reflexivity.
Defined.

(** ** Runs without input: busy iterations stutter *)

Lemma loop_motorsRunning (t : Tick) (b : bool) (m : Machine) :
  loop t (set_motorsRunning b m) = loop t m.
Proof. rewrite !loop_eq. reflexivity. Qed.

Lemma stateAction_nonHoming (t : Tick) (m : Machine) :
  nonHoming m -> stateAction t m = stateAction idleTick m.
Proof.
  intros [Hx Hy]. unfold stateAction.
  destruct (systemState m); try reflexivity; congruence.
Qed.

Lemma loop_quiet_idle (t : Tick) (m : Machine) :
  quiet t -> busy t = false -> nonHoming m -> loop t m = loop idleTick m.
Proof.
  intros Hq Hb Hn. rewrite !loop_eq.
  rewrite (readSerial_none t) by exact Hq.
  rewrite (readSerial_none idleTick) by reflexivity.
  change (busy idleTick) with false. rewrite Hb. cbn [fst snd].
  rewrite (stateAction_nonHoming t) by exact Hn. reflexivity.
Qed.

Lemma loop_quiet_busy (t : Tick) (m : Machine) :
  quiet t -> busy t = true -> nonHoming m ->
  loop t m = (set_motorsRunning true m, polling).
Proof.
  intros Hq Hb [Hx Hy]. rewrite loop_eq, (readSerial_none t) by exact Hq.
  rewrite Hb. cbn [fst snd]. unfold stateAction.
  change (systemState (set_motorsRunning true m)) with (systemState m).
  destruct (systemState m); try congruence; reflexivity.
Qed.

Lemma loop_nonHoming (t : Tick) (m : Machine) :
  quiet t -> nonHoming m -> nonHoming (fst (loop t m)).
Proof.
  intros Hq Hn. destruct (busy t) eqn:Hb.
  - rewrite (loop_quiet_busy t m Hq Hb Hn). exact Hn.
  - rewrite loop_eq, (readSerial_none t) by exact Hq. rewrite Hb. cbn [fst].
    destruct Hn as [Hx Hy]. unfold stateAction, nonHoming.
    change (systemState (set_motorsRunning false m)) with (systemState m).
    destruct (systemState m) eqn:Hs; try congruence;
      try (cbn [fst];
           change (systemState (set_motorsRunning false m)) with (systemState m);
           rewrite Hs; split; discriminate).
    + rewrite processPattern_idle by reflexivity.
      pose proof (skipSides_spec 4 (set_motorsRunning false m)) as (E1 & _).
      destruct (4 <=? _); cbn [fst]; [split; discriminate |].
      pose proof (stepPattern_frame (skipSides 4 (set_motorsRunning false m)))
        as (F1 & _).
      simpl in F1, E1. rewrite F1, E1, Hs. split; discriminate.
    + simpl. split; discriminate.
Qed.

Lemma final_motorsRunning (ticks : list Tick) (b : bool) (m : Machine) :
  set_motorsRunning false (final ticks (set_motorsRunning b m)) =
  set_motorsRunning false (final ticks m).
Proof.
  destruct ticks as [| t ticks]; simpl; [reflexivity |].
  rewrite loop_motorsRunning. reflexivity.
Qed.

Lemma emitted_motorsRunning (ticks : list Tick) (b : bool) (m : Machine) :
  emitted ticks (set_motorsRunning b m) = emitted ticks m.
Proof.
  destruct ticks as [| t ticks]; simpl; [reflexivity |].
  rewrite loop_motorsRunning. reflexivity.
Qed.

Lemma entered_motorsRunning (s : SystemState) (ticks : list Tick) (b : bool) (m : Machine) :
  entered s ticks (set_motorsRunning b m) = entered s ticks m.
Proof.
  destruct ticks as [| t ticks]; simpl; [reflexivity |].
  rewrite loop_motorsRunning. reflexivity.
Qed.

Lemma indexed_app (a b : list Event) : indexed (a ++ b) = indexed a ++ indexed b.
Proof.
  induction a as [| e a IH]; simpl; [reflexivity |].
  destruct e; simpl; rewrite ?IH; reflexivity.
Qed.

Lemma SystemState_eqb_refl (s : SystemState) : SystemState_eqb s s = true.
Proof. destruct s; reflexivity. Qed.

(** A run without input, from a machine that is not homing, is the run of
    its idle iterations alone: an iteration that finds an axis moving only
    samples [motorsRunning]. *)
Lemma quiet_run_stutters (s : SystemState) (ticks : list Tick) (m : Machine) :
  Forall quiet ticks -> nonHoming m ->
  set_motorsRunning false (final ticks m) =
    set_motorsRunning false (final (repeat idleTick (countIdle ticks)) m) /\
  indexed (emitted ticks m) =
    indexed (emitted (repeat idleTick (countIdle ticks)) m) /\
  entered s ticks m = entered s (repeat idleTick (countIdle ticks)) m.
Proof.
  intros Hq; revert m; induction Hq as [| t ticks Ht _ IH]; intros m Hn.
  - repeat split.
  - cbn [countIdle]. destruct (busy t) eqn:Hb; cbn [Nat.add].
    + cbn [final emitted entered]. rewrite (loop_quiet_busy t m Ht Hb Hn).
      cbn [fst snd].
      destruct (IH (set_motorsRunning true m) Hn) as (A & B & C).
      rewrite indexed_app. cbn [polling indexed app].
      change (systemState (set_motorsRunning true m)) with (systemState m).
      destruct (SystemState_eqb (systemState m) s); cbn [negb andb Nat.add];
        rewrite A, B, C, final_motorsRunning, emitted_motorsRunning,
                entered_motorsRunning; auto.
    + cbn [repeat final emitted entered]. rewrite (loop_quiet_idle t m Ht Hb Hn).
      assert (Hn' : nonHoming (fst (loop idleTick m)))
        by (apply loop_nonHoming; [reflexivity | exact Hn]).
      destruct (IH (fst (loop idleTick m)) Hn') as (A & B & C).
      rewrite !indexed_app, A, B, C. auto.
Qed.

Lemma final_app (a b : list Tick) (m : Machine) :
  final (a ++ b) m = final b (final a m).
Proof. revert m; induction a as [| t a IH]; intros m; simpl; auto. Qed.

Lemma emitted_app (a b : list Tick) (m : Machine) :
  emitted (a ++ b) m = emitted a m ++ emitted b (final a m).
Proof.
  revert m; induction a as [| t a IH]; intros m; simpl; [reflexivity |].
  rewrite IH, app_assoc. reflexivity.
Qed.

Lemma entered_app (s : SystemState) (a b : list Tick) (m : Machine) :
  entered s (a ++ b) m = entered s a m + entered s b (final a m).
Proof.
  revert m; induction a as [| t a IH]; intros m; simpl; [reflexivity |].
  rewrite IH. lia.
Qed.

Lemma idle_stays (k : nat) (m : Machine) :
  systemState m = IDLE ->
  systemState (final (repeat idleTick k) m) = IDLE /\
  indexed (emitted (repeat idleTick k) m) = [] /\
  entered CYCLE_COMPLETE (repeat idleTick k) m = 0.
Proof.
  revert m; induction k as [| k IH]; intros m Hs; [repeat split; exact Hs |].
  assert (E : loop idleTick m = (set_motorsRunning false m, polling)).
  { rewrite loop_eq. cbn [fst snd readSerial idleTick serialLine skip].
    unfold stateAction. change (busy idleTick) with false.
    change (systemState (set_motorsRunning false m)) with (systemState m).
    rewrite Hs. reflexivity. }
  cbn [repeat final emitted entered]. rewrite E. cbn [fst snd].
  destruct (IH (set_motorsRunning false m) Hs) as (A & B & C).
  rewrite indexed_app, A, B, C.
  change (systemState (set_motorsRunning false m)) with (systemState m).
  rewrite Hs. repeat split.
Qed.

(** ** A whole cycle, for every selection *)

Lemma cycle_table (a b c d : bool) (relay : Level) (n : nat) :
  n <= cycleTicks [a; b; c; d] -> cycleCheck [a; b; c; d] relay n = true.
Proof.
  intros Hn.
  assert (T : forallb (cycleCheck [a; b; c; d] relay)
                (seq 0 (S (cycleTicks [a; b; c; d]))) = true)
    by (destruct a, b, c, d, relay; vm_compute; reflexivity).
  rewrite forallb_forall in T. apply T, in_seq. lia.
Qed.

Lemma cycleCheck_standing (sel : list bool) (relay : Level) (n : nat) :
  cycleCheck sel relay n = true ->
  standing sel
    (systemState (final (repeat idleTick n) (cycleStart sel relay)))
    (indexed (emitted (repeat idleTick n) (cycleStart sel relay)))
    (entered CYCLE_COMPLETE (repeat idleTick n) (cycleStart sel relay)) n.
Proof.
  unfold cycleCheck, standing.
  destruct (systemState (final (repeat idleTick n) (cycleStart sel relay)));
    try discriminate; rewrite !andb_true_iff, bool_decide_eq_true;
    intros ((H1 & H2) & H3); apply Nat.eqb_eq in H2.
  - right; right. apply Nat.leb_le in H3. auto.
  - left. apply Nat.ltb_lt in H3. auto.
  - right; left. apply Nat.eqb_eq in H3. auto.
Qed.

(** Idle iterations only, any number of them. *)
Lemma cycle_idle_run (a b c d : bool) (relay : Level) (n : nat) :
  standing [a; b; c; d]
    (systemState (final (repeat idleTick n) (cycleStart [a; b; c; d] relay)))
    (indexed (emitted (repeat idleTick n) (cycleStart [a; b; c; d] relay)))
    (entered CYCLE_COMPLETE (repeat idleTick n) (cycleStart [a; b; c; d] relay)) n.
Proof.
  set (sel := [a; b; c; d]). set (N := cycleTicks sel).
  destruct (Nat.le_gt_cases n N) as [Hle | Hgt].
  - apply cycleCheck_standing, cycle_table, Hle.
  - pose proof (cycleCheck_standing sel relay N (cycle_table a b c d relay N (Nat.le_refl _)))
      as HN.
    destruct HN as [(_ & _ & _ & H) | [(_ & _ & _ & H) | (Hst & Hidx & Hcc & _)]];
      [fold N in H; lia | fold N in H; lia |].
    replace n with (N + (n - N)) at 1 2 3 by lia.
    rewrite repeat_app, final_app, emitted_app, entered_app, indexed_app.
    destruct (idle_stays (n - N) _ Hst) as (A & B & C).
    rewrite A, B, C, app_nil_r, Nat.add_0_r.
    right; right. fold N. repeat split; auto; lia.
Qed.

(** Any schedule of busy and idle iterations without input. *)
Lemma cycle_run (a b c d busy0 : bool) (relay : Level) (ticks : list Tick) :
  Forall quiet ticks ->
  let m := mkMachine EXECUTING_PATTERN busy0 0 0 [a; b; c; d] relay in
  standing [a; b; c; d] (systemState (final ticks m))
    (indexed (emitted ticks m)) (entered CYCLE_COMPLETE ticks m) (countIdle ticks).
Proof.
  intros Hq m.
  assert (Hn : nonHoming m) by (split; discriminate).
  destruct (quiet_run_stutters CYCLE_COMPLETE ticks m Hq Hn) as (A & B & C).
  change (systemState (final ticks m))
    with (systemState (set_motorsRunning false (final ticks m))).
  rewrite A, B, C. unfold m.
  change (mkMachine EXECUTING_PATTERN busy0 0 0 [a; b; c; d] relay)
    with (set_motorsRunning busy0 (cycleStart [a; b; c; d] relay)).
  rewrite final_motorsRunning, emitted_motorsRunning, entered_motorsRunning.
  apply cycle_idle_run.
Qed.

Lemma loop_start (t : Tick) (m : Machine) :
  start t -> systemState m = HOMED_WAITING ->
  loop t m =
  loop (withoutSerial t)
       (mkMachine EXECUTING_PATTERN (motorsRunning m) 0 0 (sidesToPaint m) (paintRelay m)).
Proof.
  intros Hs Hw. rewrite !loop_eq.
  rewrite (readSerial_none (withoutSerial t)) by reflexivity.
  change (busy (withoutSerial t)) with (busy t).
  assert (E : readSerial t (set_motorsRunning (busy t) m) =
              (mkMachine EXECUTING_PATTERN (busy t) 0 0 (sidesToPaint m) (paintRelay m), [])).
  { destruct Hs as [H | H]; rewrite (readSerial_receives _ _ _ H);
      unfold singleCommand; cbn [Ascii.eqb Bool.eqb orb andb];
      change (systemState (set_motorsRunning (busy t) m)) with (systemState m);
      rewrite Hw; reflexivity. }
  rewrite E. reflexivity.
Qed.

(** From "start" on: the iteration that reads it and any schedule without
    input after it. *)
Lemma cycle_from_start (a b c d : bool) (m : Machine) (t : Tick) (ticks : list Tick) :
  systemState m = HOMED_WAITING ->
  sidesToPaint m = [a; b; c; d] ->
  start t -> Forall quiet ticks ->
  standing [a; b; c; d] (systemState (final (t :: ticks) m))
    (indexed (emitted (t :: ticks) m)) (entered CYCLE_COMPLETE (t :: ticks) m)
    (countIdle (t :: ticks)).
Proof.
  intros Hw Hsel Hs Hq.
  assert (Hq' : Forall quiet (withoutSerial t :: ticks))
    by (constructor; [reflexivity | exact Hq]).
  pose proof (cycle_run a b c d (motorsRunning m) (paintRelay m)
                (withoutSerial t :: ticks) Hq') as H.
  cbn [final emitted entered countIdle] in H |- *.
  rewrite (loop_start t m Hs Hw), Hsel, Hw.
  exact H.
Qed.

Lemma cycle_complete_leaves (m : Machine) (t : Tick) :
  systemState m = CYCLE_COMPLETE -> quiet t ->
  systemState (fst (loop t m)) = if busy t then CYCLE_COMPLETE else IDLE.
Proof.
  intros Hs Hq. rewrite loop_eq, (readSerial_none t) by exact Hq. cbn [fst].
  unfold stateAction.
  change (systemState (set_motorsRunning (busy t) m)) with (systemState m).
  rewrite Hs. cbn [motorsRunning set_motorsRunning].
  destruct (busy t); simpl; [exact Hs | reflexivity].
Qed.

(** C3: with sides 2 and 4 selected, from [HOMED_WAITING], over the
    iteration that reads "start" and any later iterations without input,
    whatever the axes do: the tables are read at side 2's indices in order
    and then side 4's, never side 1's or side 3's, so never more than
    [SIDE2_SIZE + SIDE4_SIZE] commands are executed; [CYCLE_COMPLETE] is
    entered at most once, and only with all those commands executed; once
    60 iterations have found the axes idle the state is [CYCLE_COMPLETE],
    and from the 61st on it is [IDLE], with exactly
    [SIDE2_SIZE + SIDE4_SIZE] commands executed and [CYCLE_COMPLETE]
    entered exactly once.  An iteration in [CYCLE_COMPLETE] moves to [IDLE]
    when it finds no axis moving and stays otherwise. *)
Theorem C3_cycle_sides_2_and_4 (m : Machine) (t : Tick) (ticks : list Tick) :
  systemState m = HOMED_WAITING ->
  sidesToPaint m = [false; true; false; true] ->
  start t -> Forall quiet ticks ->
  let idx := indexed (emitted (t :: ticks) m) in
  let cc := entered CYCLE_COMPLETE (t :: ticks) m in
  let st := systemState (final (t :: ticks) m) in
  let pass := sidePass 1 ++ sidePass 3 in
  length pass = SIDE2_SIZE + SIDE4_SIZE /\
  idx `prefix_of` pass /\
  (forall i, ~ In (0, i) idx /\ ~ In (2, i) idx) /\
  cc <= 1 /\
  ((st = EXECUTING_PATTERN /\ cc = 0) \/
   (st = CYCLE_COMPLETE /\ idx = pass /\ cc = 1) \/
   (st = IDLE /\ idx = pass /\ cc = 1)) /\
  (countIdle (t :: ticks) = 60 -> st = CYCLE_COMPLETE) /\
  (61 <= countIdle (t :: ticks) ->
   st = IDLE /\ idx = pass /\ length idx = SIDE2_SIZE + SIDE4_SIZE /\ cc = 1) /\
  (forall m' t', systemState m' = CYCLE_COMPLETE -> quiet t' ->
     systemState (fst (loop t' m')) = if busy t' then CYCLE_COMPLETE else IDLE).
Proof.
  intros Hw Hsel Hs Hq idx cc st pass.
  pose proof (cycle_from_start false true false true m t ticks Hw Hsel Hs Hq) as H.
  fold idx cc st in H. unfold standing in H.
  change (cyclePass [false; true; false; true]) with pass in H.
  change (cycleTicks [false; true; false; true]) with 61 in H.
  assert (Hpre : idx `prefix_of` pass).
  { destruct H as [(_ & P & _) | [(_ & -> & _) | (_ & -> & _)]]; [exact P | |];
      reflexivity. }
  split; [reflexivity |]. split; [exact Hpre |].
  split; [| split; [| split; [| split; [| split]]]].
  - intros i. destruct Hpre as [k Hk].
    assert (Hin : forall p, In p idx -> fst p = 1 \/ fst p = 3).
    { intros p Hp.
      assert (Hp' : In p pass) by (rewrite Hk; apply in_or_app; left; exact Hp).
      unfold pass, sidePass in Hp'.
      apply in_app_or in Hp' as [Hp' | Hp']; apply in_map_iff in Hp' as (x & <- & _);
        simpl; auto. }
    split; intros Hi; apply Hin in Hi; simpl in Hi; lia.
  - destruct H as [(_ & _ & -> & _) | [(_ & _ & -> & _) | (_ & _ & -> & _)]]; lia.
  - destruct H as [(A & _ & B & _) | [(A & B & C & _) | (A & B & C & _)]]; auto.
  - intros Hc. rewrite Hc in H.
    destruct H as [(_ & _ & _ & L) | [(A & _) | (_ & _ & _ & L)]]; [lia | exact A | lia].
  - intros Hc.
    destruct H as [(_ & _ & _ & L) | [(_ & _ & _ & L) | (A & B & C & _)]];
      [lia | lia |].
    repeat split; auto. rewrite B. reflexivity.
  - apply cycle_complete_leaves.
Qed.

Lemma C3_witness :
  let m := mkMachine HOMED_WAITING false 7 7 [false; true; false; true] HIGH in
  let t := mkTick (Some "S"%string) true true false false false false false in
  let moving := mkTick None true true true false false false false in
  let ticks := repeat idleTick 30 ++ [moving; moving] ++ repeat idleTick 30 in
  systemState (final (t :: ticks) m) = IDLE /\
  indexed (emitted (t :: ticks) m) = sidePass 1 ++ sidePass 3 /\
  length (indexed (emitted (t :: ticks) m)) = SIDE2_SIZE + SIDE4_SIZE /\
  entered CYCLE_COMPLETE (t :: ticks) m = 1.
Proof.
  intros m t moving ticks.
  assert (Hs : start t) by (left; exists "S"%string; split; reflexivity).
  assert (Hq : Forall quiet ticks) by (repeat constructor).
  pose proof (C3_cycle_sides_2_and_4 m t ticks eq_refl eq_refl Hs Hq)
    as (_ & _ & _ & _ & _ & _ & H & _).
  apply H. vm_compute. lia.
Defined.

(** ** Start-up *)

(** C10: [setup] leaves the machine in [IDLE] with the relay pin written
    to its inactive level and the four sides selected.  From there, after
    any run that reads no selection line and ends in [HOMED_WAITING], the
    iteration that reads "start" and later iterations without input execute
    the four tables in order, each from its first command to its last: the
    tables are read at the indices 0 to [SIDE1_SIZE - 1] of side 1, then
    those of side 2, of side 3 and of side 4, 33 + 33 + 25 + 24 reads in
    all, and the commands read are [SIDE1_PATTERN], [SIDE2_PATTERN],
    [SIDE3_PATTERN] and [SIDE4_PATTERN] one after the other; the machine
    ends in [IDLE], once as many iterations as there are commands, and six
    more, have found the axes idle. *)
Theorem C10_startup (relay : Level) (pre : list Tick) (t : Tick) (ticks : list Tick) :
  let m0 := booted relay in
  (systemState m0 = IDLE /\ paintRelay m0 = HIGH /\
   sidesToPaint m0 = [true; true; true; true] /\
   In (DigitalWrite PAINT_RELAY_PIN HIGH) (snd (setup (powerOn relay)))) /\
  (Forall (fun t' => ~ selects t') pre ->
   systemState (final pre m0) = HOMED_WAITING ->
   start t -> Forall quiet ticks ->
   SIDE1_SIZE + SIDE2_SIZE + SIDE3_SIZE + SIDE4_SIZE + 6 <= countIdle (t :: ticks) ->
   let idx := indexed (emitted (t :: ticks) (final pre m0)) in
   idx =
     map (pair 0) (seq 0 SIDE1_SIZE) ++ map (pair 1) (seq 0 SIDE2_SIZE) ++
     map (pair 2) (seq 0 SIDE3_SIZE) ++ map (pair 3) (seq 0 SIDE4_SIZE) /\
   length idx = 33 + 33 + 25 + 24 /\
   map commandAt idx =
     map Some (SIDE1_PATTERN ++ SIDE2_PATTERN ++ SIDE3_PATTERN ++ SIDE4_PATTERN) /\
   systemState (final (t :: ticks) (final pre m0)) = IDLE).
Proof.
  intros m0. split.
  - repeat split. simpl. auto 10.
  - intros Hpre Hw Hs Hq Hc idx.
    change (SIDE1_SIZE + SIDE2_SIZE + SIDE3_SIZE + SIDE4_SIZE + 6) with 121 in Hc.
    assert (Hsel : sidesToPaint (final pre m0) = [true; true; true; true])
      by (rewrite final_sides by exact Hpre; reflexivity).
    pose proof (cycle_from_start true true true true _ t ticks Hw Hsel Hs Hq) as H.
    fold idx in H. unfold standing in H.
    change (cycleTicks [true; true; true; true]) with 121 in H.
    destruct H as [(_ & _ & _ & L) | [(_ & _ & _ & L) | (A & B & _)]]; [lia | lia |].
    assert (E : idx =
      map (pair 0) (seq 0 SIDE1_SIZE) ++ map (pair 1) (seq 0 SIDE2_SIZE) ++
      map (pair 2) (seq 0 SIDE3_SIZE) ++ map (pair 3) (seq 0 SIDE4_SIZE))
      by (rewrite B; reflexivity).
    split; [exact E |].
    split; [rewrite E; reflexivity |].
    split; [rewrite E; vm_compute; reflexivity | exact A].
Qed.

Lemma C10_witness :
  let homeTick := mkTick (Some "H"%string) false true false false false false false in
  let yTick := mkTick None true false false false false false false in
  let t := mkTick (Some "s"%string) true true false false false false false in
  let pre := [homeTick; yTick] in
  let ticks := repeat idleTick 120 in
  length (indexed (emitted (t :: ticks) (final pre (booted LOW)))) = 33 + 33 + 25 + 24 /\
  map commandAt (indexed (emitted (t :: ticks) (final pre (booted LOW)))) =
    map Some (SIDE1_PATTERN ++ SIDE2_PATTERN ++ SIDE3_PATTERN ++ SIDE4_PATTERN) /\
  systemState (final (t :: ticks) (final pre (booted LOW))) = IDLE.
Proof.
  intros homeTick yTick t pre ticks.
  assert (Hs : start t) by (right; exists "s"%string; split; reflexivity).
  assert (Hq : Forall quiet ticks) by (repeat constructor).
  assert (Hpre : Forall (fun t' => ~ selects t') pre).
  { repeat constructor; intros (l & Hl & Hlen); vm_compute in Hl;
      try discriminate; injection Hl as <-; vm_compute in Hlen; lia. }
  apply (proj2 (C10_startup LOW pre t ticks) Hpre eq_refl Hs Hq).
  vm_compute. lia.
Defined.

(** ** The spray relay *)

Lemma executeCommand_spray_move (cmd : Command) (m : Machine) :
  type cmd = "X"%char \/ type cmd = "Y"%char -> sprayOn cmd = true ->
  paintRelay (fst (executeCommand cmd m)) = LOW /\
  exists a steps,
    snd (executeCommand cmd m) = [DigitalWrite PAINT_RELAY_PIN LOW; StepperMove a steps].
Proof.
  intros Ht Hs. unfold executeCommand. rewrite Hs.
  destruct Ht as [-> | ->]; simpl; split; eauto.
Qed.

Lemma executeCommand_holds (cmd : Command) (m : Machine) :
  paintRelay m = LOW -> isSprayOff cmd = false ->
  paintRelay (fst (executeCommand cmd m)) = LOW.
Proof.
  unfold isSprayOff, executeCommand. intros Hr Hoff.
  destruct (Ascii.eqb (type cmd) "X"); [destruct (sprayOn cmd); simpl; auto |].
  destruct (Ascii.eqb (type cmd) "Y"); [destruct (sprayOn cmd); simpl; auto |].
  destruct (Ascii.eqb (type cmd) "R"); [simpl; auto |].
  destruct (Ascii.eqb (type cmd) "S"); [| simpl; auto].
  destruct (sprayOn cmd); [reflexivity | discriminate].
Qed.

Lemma singleCommand_relay (c : ascii) (m : Machine) :
  c <> "E"%char -> c <> "e"%char ->
  paintRelay (fst (singleCommand c m)) = paintRelay m.
Proof.
  intros HE He. unfold singleCommand.
  destruct (Ascii.eqb_spec c "E"); [contradiction |].
  destruct (Ascii.eqb_spec c "e"); [contradiction |].
  cbn [orb].
  repeat match goal with |- context [if ?b then _ else _] => destruct b end;
    destruct (systemState m); reflexivity.
Qed.

Lemma readSerial_relay (t : Tick) (m : Machine) :
  ~ emergency t -> paintRelay (fst (readSerial t m)) = paintRelay m.
Proof.
  intros Hn. unfold readSerial.
  destruct (serialLine t) as [line |] eqn:Hl; [| reflexivity].
  unfold handleInput.
  destruct (String.length (trim line) =? 1) eqn:H1.
  - apply Nat.eqb_eq, length_one in H1.
    apply singleCommand_relay; intros E; apply Hn; [left | right];
      exists line; rewrite <- E; auto.
  - destruct (2 <=? String.length (trim line)); [| reflexivity].
    unfold andThen, parseSideSelection, printSelection, assign, emit, skip; simpl.
    repeat destruct (sideSelected _ _); reflexivity.
Qed.

(** The relay is released by the state-dependent part of an iteration only
    through a command read from a table. *)
Lemma stateAction_relay (t : Tick) (m : Machine) :
  paintRelay m = LOW ->
  (forall side i c, In (side, i) (indexed (snd (stateAction t m))) ->
     fst (selectPattern side) !! i = Some c -> isSprayOff c = false) ->
  paintRelay (fst (stateAction t m)) = LOW.
Proof.
  intros Hr. unfold stateAction.
  destruct (systemState m); try (intros _; exact Hr).
  - intros _. destruct (xHomeRead t); simpl; [destruct (xIsRunningLate t) |]; exact Hr.
  - intros _. destruct (yHomeRead t); simpl; [destruct (yIsRunningLate t) |]; exact Hr.
  - destruct (motorsRunning m) eqn:Hm.
    + rewrite processPattern_running by exact Hm. intros _; exact Hr.
    + rewrite processPattern_idle by exact Hm.
      pose proof (skipSides_spec 4 m) as (_ & _ & _ & E4 & _).
      destruct (4 <=? _); cbn [fst snd]; [intros _; simpl; congruence |].
      rewrite indexed_app. cbn [speedSettings indexed app].
      destruct (stepPattern_cases (skipSides 4 m)) as [(cmd & Hc & ->) | ->];
        cbn [fst snd indexed]; intros H.
      * change (paintRelay (fst (executeCommand cmd (skipSides 4 m))) = LOW).
        apply executeCommand_holds; [congruence |].
        apply (H _ _ cmd (or_introl eq_refl) Hc).
      * simpl. congruence.
  - intros _. destruct (motorsRunning m); simpl; exact Hr.
Qed.

Lemma loop_relay (t : Tick) (m : Machine) :
  paintRelay m = LOW -> ~ emergency t ->
  (forall side i c, In (side, i) (indexed (snd (loop t m))) ->
     fst (selectPattern side) !! i = Some c -> isSprayOff c = false) ->
  paintRelay (fst (loop t m)) = LOW.
Proof.
  intros Hr Hn H. rewrite loop_eq in H |- *. cbn [fst snd] in H |- *.
  apply stateAction_relay.
  - rewrite readSerial_relay by exact Hn. exact Hr.
  - intros side i c Hin. apply H.
    rewrite !indexed_app. apply in_or_app; right. apply in_or_app; right. exact Hin.
Qed.

Lemma final_relay (ticks : list Tick) (m : Machine) :
  paintRelay m = LOW -> Forall (fun t => ~ emergency t) ticks ->
  (forall side i c, In (side, i) (indexed (emitted ticks m)) ->
     fst (selectPattern side) !! i = Some c -> isSprayOff c = false) ->
  paintRelay (final ticks m) = LOW.
Proof.
  intros Hr Hq; revert m Hr; induction Hq as [| t ticks Ht _ IH]; intros m Hr H.
  - exact Hr.
  - cbn [final emitted] in H |- *. rewrite indexed_app in H. apply IH.
    + apply loop_relay; [exact Hr | exact Ht |].
      intros side i c Hin. apply H, in_or_app. left; exact Hin.
    + intros side i c Hin. apply H, in_or_app. right; exact Hin.
Qed.

(** C6, counterexample: after start-up, homing and "start", the third
    command of side 1, [MOVE_X(26, true)], has been executed and the relay
    is asserted; the next iteration reads the emergency command: it
    executes no command at all, and the relay is released. *)
Lemma C6_counterexample :
  let homeTick := mkTick (Some "H"%string) false true false false false false false in
  let yTick := mkTick None true false false false false false false in
  let startTick := mkTick (Some "S"%string) true true false false false false false in
  let pre := [homeTick; yTick; startTick; idleTick; idleTick] in
  let stop := mkTick (Some "E"%string) true true true false false false false in
  let m := final pre (booted HIGH) in
  indexed (emitted pre (booted HIGH)) = [(0, 0); (0, 1); (0, 2)] /\
  SIDE1_PATTERN !! 2 = Some (MOVE_X 26000 true) /\
  paintRelay m = LOW /\
  indexed (snd (loop stop m)) = [] /\
  paintRelay (fst (loop stop m)) = HIGH /\
  paintRelay (fst (loop stop m)) <> LOW.
Proof. vm_compute. repeat split; congruence. Qed.

(** C6, as amended: a move on X or Y with [sprayOn] writes the relay pin
    low and then issues the move, in the same call; from then on the relay
    stays asserted through every command that is not a spray-off one, and
    through every iteration that neither reads the emergency command nor
    executes a spray-off command (so through the iterations in which a move
    completes, or a move without [sprayOn] is issued), and through every
    run of such iterations.  What releases it is a spray-off command or
    the emergency command. *)
Theorem C6_spray_held (cmd : Command) (m : Machine) (t : Tick) (ticks : list Tick) :
  (type cmd = "X"%char \/ type cmd = "Y"%char -> sprayOn cmd = true ->
   paintRelay (fst (executeCommand cmd m)) = LOW /\
   exists a steps,
     snd (executeCommand cmd m) =
       [DigitalWrite PAINT_RELAY_PIN LOW; StepperMove a steps]) /\
  (paintRelay m = LOW -> isSprayOff cmd = false ->
   paintRelay (fst (executeCommand cmd m)) = LOW) /\
  (paintRelay m = LOW -> ~ emergency t ->
   (forall side i c, In (side, i) (indexed (snd (loop t m))) ->
      fst (selectPattern side) !! i = Some c -> isSprayOff c = false) ->
   paintRelay (fst (loop t m)) = LOW) /\
  (paintRelay m = LOW -> Forall (fun t' => ~ emergency t') ticks ->
   (forall side i c, In (side, i) (indexed (emitted ticks m)) ->
      fst (selectPattern side) !! i = Some c -> isSprayOff c = false) ->
   paintRelay (final ticks m) = LOW) /\
  (emergency t -> paintRelay (fst (loop t m)) = HIGH) /\
  (isSprayOff cmd = true -> paintRelay (fst (executeCommand cmd m)) = HIGH).
Proof.
  split; [apply executeCommand_spray_move |].
  split; [apply executeCommand_holds |].
  split; [apply loop_relay |].
  split; [apply final_relay |].
  split.
  - intros He. rewrite loop_eq, (readSerial_emergency _ _ He). reflexivity.
  - unfold isSprayOff, executeCommand. rewrite andb_true_iff, negb_true_iff.
    intros [Ht Hs]. apply Ascii.eqb_eq in Ht. rewrite Ht, Hs. reflexivity.
Qed.

Lemma C6_witness :
  let m := mkMachine EXECUTING_PATTERN false 0 2 [true; true; true; true] LOW in
  let moving := mkTick None true true true false false false false in
  paintRelay (fst (executeCommand (MOVE_X 26000 true) m)) = LOW /\
  paintRelay (fst (executeCommand (MOVE_Y 4160 false) m)) = LOW /\
  paintRelay (fst (loop idleTick m)) = LOW /\
  paintRelay (final [idleTick; moving; moving] m) = LOW.
Proof.
  intros m moving.
  assert (Hq : forall t', quiet t' -> ~ emergency t')
    by (intros t' Hq [(l & Hl & _) | (l & Hl & _)]; unfold quiet in Hq; congruence).
  assert (Hidx : forall side i c, In (side, i) [(0, 2)] ->
            fst (selectPattern side) !! i = Some c -> isSprayOff c = false).
  { intros side i c [[= <- <-] | []] [= <-]. reflexivity. }
  split; [| split; [| split]].
  - apply (proj1 (C6_spray_held (MOVE_X 26000 true) m idleTick [])
             (or_introl eq_refl) eq_refl).
  - apply (proj1 (proj2 (C6_spray_held (MOVE_Y 4160 false) m idleTick []))
             eq_refl eq_refl).
  - apply (proj1 (proj2 (proj2 (C6_spray_held SPRAY_ON m idleTick [])))
             eq_refl (Hq idleTick eq_refl)).
    exact Hidx.
  - apply (proj1 (proj2 (proj2 (proj2
             (C6_spray_held SPRAY_ON m idleTick [idleTick; moving; moving]))))
             eq_refl).
    + repeat constructor; apply Hq; reflexivity.
    + exact Hidx.
Defined.

(** * Further properties of the sketch *)

(** ** What reading the serial port can do *)

Lemma fold_reset_length (l : list nat) (sides : list bool) :
  length (fold_left (fun sides i => <[i := false]> sides) l sides) = length sides.
Proof.
  revert sides; induction l as [| i l IH]; intros sides; simpl; [reflexivity |].
  rewrite IH. apply length_insert.
Qed.

Lemma markSide_length (sides : list bool) (c : ascii) :
  length (markSide sides c) = length sides.
Proof.
  unfold markSide. destruct (_ && _); [apply length_insert | reflexivity].
Qed.

Lemma fold_markSide_length (chars : list ascii) (sides : list bool) :
  length (fold_left markSide chars sides) = length sides.
Proof.
  revert sides; induction chars as [| c chars IH]; intros sides; simpl; [reflexivity |].
  rewrite IH. apply markSide_length.
Qed.

(** A selection line rewrites [sidesToPaint], keeps its length and prints;
    it calls no axis and reads no table. *)
Lemma handleInput_selection_shape (input : string) (m : Machine) :
  2 <= String.length input ->
  exists sides prints,
    handleInput input m = (set_sidesToPaint sides m, prints) /\
    length sides = length (sidesToPaint m) /\
    motion prints = [] /\ indexed prints = [].
Proof.
  intros H2. unfold handleInput.
  assert (E1 : (String.length input =? 1) = false) by (apply Nat.eqb_neq; lia).
  apply Nat.leb_le in H2. rewrite E1, H2.
  pose (sides := fold_left markSide (list_ascii_of_string input)
                   (fold_left (fun sides i => <[i := false]> sides) (seq 0 4)
                              (sidesToPaint m))).
  exists sides.
  assert (Hlen : length sides = length (sidesToPaint m))
    by (unfold sides; rewrite fold_markSide_length, fold_reset_length; reflexivity).
  assert (Hp : parseSideSelection input m = (set_sidesToPaint sides m, []))
    by reflexivity.
  unfold andThen. rewrite Hp.
  unfold printSelection, andThen, emit, skip; simpl.
  repeat destruct (sideSelected _ _); eexists; repeat split; exact Hlen.
Qed.

(** Every way [readSerial] can go. *)
Lemma readSerial_cases (t : Tick) (m : Machine) :
  readSerial t m = (m, []) \/
  (home t /\ systemState m = IDLE /\
   readSerial t m = (set_systemState HOMING_X m, [])) \/
  (start t /\ systemState m = HOMED_WAITING /\
   readSerial t m =
     (mkMachine EXECUTING_PATTERN (motorsRunning m) 0 0 (sidesToPaint m) (paintRelay m),
      [])) \/
  (emergency t /\
   readSerial t m =
     (set_paintRelay HIGH (set_systemState ERROR m),
      [DigitalWrite PAINT_RELAY_PIN HIGH;
       StepperStop AxisX; StepperStop AxisY; StepperStop AxisRotation])) \/
  (reset t /\ systemState m = ERROR /\
   readSerial t m = (set_systemState IDLE m, [])) \/
  (selects t /\
   exists sides prints,
     readSerial t m = (set_sidesToPaint sides m, prints) /\
     length sides = length (sidesToPaint m) /\
     motion prints = [] /\ indexed prints = []).
Proof.
  unfold readSerial.
  destruct (serialLine t) as [line |] eqn:Hl; [| left; reflexivity].
  destruct (Nat.lt_ge_cases (String.length (trim line)) 2) as [Hshort | Hlong].
  2:{ do 5 right. split; [exists line; auto |].
      apply handleInput_selection_shape, Hlong. }
  unfold handleInput.
  destruct (String.length (trim line) =? 1) eqn:H1.
  2:{ assert (H2 : (2 <=? String.length (trim line)) = false)
        by (apply Nat.leb_gt; exact Hshort).
      rewrite H2. left; reflexivity. }
  apply Nat.eqb_eq, length_one in H1.
  set (c := charAt (trim line) 0) in *.
  assert (R : receives t c) by (exists line; auto).
  unfold singleCommand.
  destruct (Ascii.eqb_spec c "H") as [EH | NH];
    [| destruct (Ascii.eqb_spec c "h") as [Eh | Nh]]; cbn [orb].
  1,2: destruct (systemState m) eqn:Hs; try (left; reflexivity);
       right; left; (split; [| split; [reflexivity |]]);
       [ (left + right); congruence | destruct m; simpl in *; congruence ].
  destruct (Ascii.eqb_spec c "S") as [ES | NS];
    [| destruct (Ascii.eqb_spec c "s") as [Es | Ns]]; cbn [orb].
  1,2: destruct (systemState m) eqn:Hs; try (left; reflexivity);
       right; right; left; (split; [| split; [reflexivity |]]);
       [ (left + right); congruence | reflexivity ].
  destruct (Ascii.eqb_spec c "E") as [EE | NE];
    [| destruct (Ascii.eqb_spec c "e") as [Ee | Ne]]; cbn [orb].
  1,2: right; right; right; left; split; [(left + right); congruence | reflexivity].
  destruct (Ascii.eqb_spec c "R") as [ER | NR];
    [| destruct (Ascii.eqb_spec c "r") as [Er | Nr]]; cbn [orb].
  1,2: destruct (systemState m) eqn:Hs; try (left; reflexivity);
       right; right; right; right; left; (split; [| split; [reflexivity |]]);
       [ (left + right); congruence | destruct m; simpl in *; congruence ].
  left; reflexivity.
Qed.

Lemma readSerial_state (t : Tick) (m : Machine) :
  motorsRunning (fst (readSerial t m)) = motorsRunning m /\
  (systemState (fst (readSerial t m)) = systemState m \/
   (home t /\ systemState m = IDLE /\
    systemState (fst (readSerial t m)) = HOMING_X) \/
   (start t /\ systemState m = HOMED_WAITING /\
    systemState (fst (readSerial t m)) = EXECUTING_PATTERN) \/
   (emergency t /\ systemState (fst (readSerial t m)) = ERROR) \/
   (reset t /\ systemState m = ERROR /\
    systemState (fst (readSerial t m)) = IDLE)).
Proof.
  destruct (readSerial_cases t m)
    as [E | [(H & Hs & E) | [(H & Hs & E) | [(H & E) | [(H & Hs & E) |
        (H & sides & prints & E & _)]]]]]; rewrite E; cbn [fst]; split;
    try reflexivity; auto 10.
Qed.

(** ** What the state-dependent part can do *)

Lemma stateAction_cases (t : Tick) (m : Machine) :
  stateAction t m =
  match systemState m with
  | IDLE | HOMED_WAITING | ERROR => (m, [])
  | HOMING_X =>
      if negb (xHomeRead t)
      then (set_systemState HOMING_Y m, [StepperSetCurrentPosition AxisX 0])
      else if negb (xIsRunningLate t)
           then (m, [StepperMoveTo AxisX (-1000000)])
           else (m, [])
  | HOMING_Y =>
      if negb (yHomeRead t)
      then (set_systemState HOMED_WAITING m,
            [StepperSetCurrentPosition AxisY 0;
             SerialPrintln "Homing complete. Enter 'S' to start painting."])
      else if negb (yIsRunningLate t)
           then (m, [StepperMoveTo AxisY (-1000000)])
           else (m, [])
  | EXECUTING_PATTERN => processPattern m
  | CYCLE_COMPLETE =>
      if negb (motorsRunning m)
      then (set_systemState IDLE m, [SerialPrintln "Cycle complete"])
      else (m, [])
  end.
Proof.
  unfold stateAction. destruct (systemState m); reflexivity.
Qed.

(** What a command can do: it writes the relay or not, and makes at most
    one call to an axis. *)
Lemma executeCommand_shape (cmd : Command) (m : Machine) :
  exists r evs,
    executeCommand cmd m = (set_paintRelay r m, evs) /\
    length (motion evs) <= 1 /\ indexed evs = [] /\
    (r = paintRelay m \/ (r = LOW /\ sprayOn cmd = true) \/
     (r = HIGH /\ isSprayOff cmd = true)).
Proof.
  unfold executeCommand, isSprayOff.
  destruct (Ascii.eqb (type cmd) "X");
    [| destruct (Ascii.eqb (type cmd) "Y");
       [| destruct (Ascii.eqb (type cmd) "R");
          [| destruct (Ascii.eqb (type cmd) "S")]]];
    try destruct (sprayOn cmd);
    try (exists LOW; eexists; split; [reflexivity |]; simpl; auto 6; fail);
    try (exists HIGH; eexists; split; [reflexivity |]; simpl; auto 6; fail);
    exists (paintRelay m); eexists; (split; [destruct m; reflexivity |]);
    simpl; auto 6.
Qed.

(** Every way an advance of the sequencer can go. *)
Lemma processPattern_cases (m : Machine) :
  motorsRunning m = false ->
  (4 <= currentSide (skipSides 4 m) /\
   processPattern m = (set_systemState CYCLE_COMPLETE (skipSides 4 m), [])) \/
  (currentSide (skipSides 4 m) < 4 /\
   exists cmd,
     fst (selectPattern (currentSide (skipSides 4 m)))
       !! currentCommand (skipSides 4 m) = Some cmd /\
     processPattern m =
       (set_currentCommand (S (currentCommand (skipSides 4 m)))
          (fst (executeCommand cmd (skipSides 4 m))),
        speedSettings ++
        PatternIndex (currentSide (skipSides 4 m)) (currentCommand (skipSides 4 m))
          :: snd (executeCommand cmd (skipSides 4 m)))) \/
  (currentSide (skipSides 4 m) < 4 /\
   snd (selectPattern (currentSide (skipSides 4 m))) <= currentCommand (skipSides 4 m) /\
   processPattern m =
     (set_currentSide (S (currentSide (skipSides 4 m)))
        (set_currentCommand 0 (skipSides 4 m)), speedSettings)).
Proof.
  intros Hidle. rewrite (processPattern_idle m Hidle).
  destruct (4 <=? currentSide (skipSides 4 m)) eqn:H4.
  - left. apply Nat.leb_le in H4. auto.
  - apply Nat.leb_gt in H4. right.
    destruct (fst (selectPattern (currentSide (skipSides 4 m)))
                !! currentCommand (skipSides 4 m)) as [cmd |] eqn:Hc.
    + left. split; [exact H4 |]. exists cmd. split; [reflexivity |].
      rewrite (stepPattern_execute _ cmd Hc). reflexivity.
    + right. apply lookup_ge_None in Hc. rewrite <- size_is_length in Hc.
      split; [exact H4 |]. split; [exact Hc |].
      rewrite (stepPattern_rollover _ Hc). cbn [fst snd]. rewrite app_nil_r.
      reflexivity.
Qed.

Lemma stateAction_state (t : Tick) (m : Machine) :
  systemState (fst (stateAction t m)) = systemState m \/
  (systemState m = HOMING_X /\ xHomeRead t = false /\
   systemState (fst (stateAction t m)) = HOMING_Y) \/
  (systemState m = HOMING_Y /\ yHomeRead t = false /\
   systemState (fst (stateAction t m)) = HOMED_WAITING) \/
  (systemState m = EXECUTING_PATTERN /\ motorsRunning m = false /\
   systemState (fst (stateAction t m)) = CYCLE_COMPLETE) \/
  (systemState m = CYCLE_COMPLETE /\ motorsRunning m = false /\
   systemState (fst (stateAction t m)) = IDLE).
Proof.
  rewrite stateAction_cases. destruct (systemState m) eqn:Hs; auto.
  - destruct (xHomeRead t); [destruct (xIsRunningLate t) |]; simpl; auto 10.
  - destruct (yHomeRead t); [destruct (yIsRunningLate t) |]; simpl; auto 10.
  - destruct (motorsRunning m) eqn:Hm.
    + rewrite processPattern_running by exact Hm. auto.
    + pose proof (skipSides_spec 4 m) as (E1 & _).
      destruct (processPattern_cases m Hm)
        as [(_ & E) | [(_ & cmd & _ & E) | (_ & _ & E)]]; rewrite E; cbn [fst].
      * right; right; right; left. auto.
      * left. destruct (executeCommand_shape cmd (skipSides 4 m))
          as (r & evs & Ex & _). rewrite Ex. simpl. congruence.
      * left. simpl. congruence.
  - destruct (motorsRunning m); simpl; auto 10.
Qed.

(** ** The transitions of the state machine *)

(** X1: whatever an iteration reads and finds, a change of state has its
    trigger.  [HOMING_X] is entered from [IDLE] on "home"; [HOMING_Y] from
    [HOMING_X] on the X sensor reading low (also straight from [IDLE], when
    "home" is read while the X sensor is already low); [HOMED_WAITING] from
    [HOMING_Y] on the Y sensor reading low; [EXECUTING_PATTERN] from
    [HOMED_WAITING] on "start"; [CYCLE_COMPLETE] from executing (or from
    the "start" iteration itself) with no axis moving; [ERROR] on the
    emergency command; [IDLE] from [ERROR] on "reset" or from
    [CYCLE_COMPLETE] with no axis moving. *)
Theorem X1_transitions_have_triggers (m : Machine) (t : Tick) :
  let s := systemState m in
  let s' := systemState (fst (loop t m)) in
  (s' = HOMING_X -> s = HOMING_X \/ (s = IDLE /\ home t)) /\
  (s' = HOMING_Y ->
   s = HOMING_Y \/ (s = HOMING_X /\ xHomeRead t = false) \/
   (s = IDLE /\ home t /\ xHomeRead t = false)) /\
  (s' = HOMED_WAITING -> s = HOMED_WAITING \/ (s = HOMING_Y /\ yHomeRead t = false)) /\
  (s' = EXECUTING_PATTERN ->
   s = EXECUTING_PATTERN \/ (s = HOMED_WAITING /\ start t)) /\
  (s' = CYCLE_COMPLETE ->
   s = CYCLE_COMPLETE \/
   ((s = EXECUTING_PATTERN \/ (s = HOMED_WAITING /\ start t)) /\ busy t = false)) /\
  (s' = ERROR -> s = ERROR \/ emergency t) /\
  (s' = IDLE ->
   s = IDLE \/ (s = ERROR /\ reset t) \/ (s = CYCLE_COMPLETE /\ busy t = false)).
Proof.
  intros s s'. subst s s'. rewrite loop_eq. cbn [fst].
  destruct (readSerial_state t (set_motorsRunning (busy t) m)) as (Hm & Hr).
  pose proof (stateAction_state t (fst (readSerial t (set_motorsRunning (busy t) m))))
    as Hst.
  change (systemState (set_motorsRunning (busy t) m)) with (systemState m) in Hr.
  change (motorsRunning (set_motorsRunning (busy t) m)) with (busy t) in Hm.
  rewrite Hm in Hst.
  set (s1 := systemState (fst (readSerial t (set_motorsRunning (busy t) m)))) in *.
  set (s2 := systemState (fst (stateAction t _))) in *.
  clearbody s1 s2.
  destruct Hr as [Hr | [(Hh & Hs & Hr) | [(Hh & Hs & Hr) | [(Hh & Hr) | (Hh & Hs & Hr)]]]];
    destruct Hst as [Hst | [(H1 & Hx & Hst) | [(H1 & Hx & Hst) |
                    [(H1 & Hx & Hst) | (H1 & Hx & Hst)]]]];
    repeat split; intros Hs'; try congruence;
    try (left; congruence);
    try (right; left; repeat split; congruence || assumption);
    try (right; right; repeat split; congruence || assumption);
    try (right; repeat split; congruence || assumption);
    try (right; split; [left; congruence | congruence || assumption]);
    try (right; split; [right; split; congruence || assumption
                       | congruence || assumption]).
Qed.

Lemma X1_witness :
  let m := booted HIGH in
  let t := mkTick (Some " h"%string) false true false false false false false in
  systemState (fst (loop t m)) = HOMING_Y /\
  (systemState m = HOMING_Y \/ (systemState m = HOMING_X /\ xHomeRead t = false) \/
   (systemState m = IDLE /\ home t /\ xHomeRead t = false)).
Proof.
  intros m t. split; [reflexivity |].
  apply (proj1 (proj2 (X1_transitions_have_triggers m t))). reflexivity.
Defined.

(** ** Table reads *)

Lemma readSerial_indexed (t : Tick) (m : Machine) :
  indexed (snd (readSerial t m)) = [].
Proof.
  destruct (readSerial_cases t m)
    as [E | [(H & Hs & E) | [(H & Hs & E) | [(H & E) | [(H & Hs & E) |
        (H & sides & prints & E & _ & _ & Hi)]]]]]; rewrite E; auto.
Qed.

(** The state-dependent part reads a table at most once, at the cursor
    that skipping leaves, on a selected side and inside the table. *)
Lemma stateAction_indexed (t : Tick) (m : Machine) :
  indexed (snd (stateAction t m)) = [] \/
  (systemState m = EXECUTING_PATTERN /\ motorsRunning m = false /\
   indexed (snd (stateAction t m)) =
     [(currentSide (skipSides 4 m), currentCommand (skipSides 4 m))] /\
   currentSide (skipSides 4 m) < 4 /\
   currentCommand (skipSides 4 m) < snd (selectPattern (currentSide (skipSides 4 m))) /\
   sideSelected (sidesToPaint m) (currentSide (skipSides 4 m)) = true).
Proof.
  rewrite stateAction_cases. destruct (systemState m) eqn:Hs; auto.
  - destruct (xHomeRead t); [destruct (xIsRunningLate t) |]; auto.
  - destruct (yHomeRead t); [destruct (yIsRunningLate t) |]; auto.
  - destruct (motorsRunning m) eqn:Hm.
    + rewrite processPattern_running by exact Hm. auto.
    + destruct (processPattern_cases m Hm)
        as [(_ & E) | [(Hlt & cmd & Hc & E) | (_ & _ & E)]]; rewrite E; auto.
      right. cbn [snd]. rewrite indexed_app. cbn [speedSettings indexed app].
      destruct (executeCommand_shape cmd (skipSides 4 m)) as (r & evs & Ex & _ & Hi & _).
      rewrite Ex. cbn [snd]. rewrite Hi.
      repeat split; auto.
      * rewrite size_is_length. apply lookup_lt_Some in Hc. exact Hc.
      * pose proof (skipSides_spec 4 m) as (_ & _ & E3 & _).
        destruct (skipSides_exit m) as [H4 | Hsel]; [lia |].
        rewrite E3 in Hsel. exact Hsel.
  - destruct (motorsRunning m); auto.
Qed.

(** X2: an iteration executes at most one table command.  It executes
    none when it finds an axis moving, none when it reads the emergency
    command, and none unless the machine was executing a pattern or the
    iteration reads "start" in [HOMED_WAITING]. *)
Theorem X2_one_command_per_idle_iteration (m : Machine) (t : Tick) :
  length (indexed (snd (loop t m))) <= 1 /\
  (busy t = true -> indexed (snd (loop t m)) = []) /\
  (emergency t -> indexed (snd (loop t m)) = []) /\
  (indexed (snd (loop t m)) <> [] ->
   systemState m = EXECUTING_PATTERN \/ (systemState m = HOMED_WAITING /\ start t)).
Proof.
  rewrite loop_eq. cbn [snd]. rewrite !indexed_app, readSerial_indexed.
  cbn [polling indexed app].
  destruct (readSerial_state t (set_motorsRunning (busy t) m)) as (Hm & Hr).
  change (systemState (set_motorsRunning (busy t) m)) with (systemState m) in Hr.
  change (motorsRunning (set_motorsRunning (busy t) m)) with (busy t) in Hm.
  destruct (stateAction_indexed t (fst (readSerial t (set_motorsRunning (busy t) m))))
    as [E | (Hs & Hidle & E & _)]; rewrite E.
  - repeat split; auto. intros H; contradiction.
  - rewrite Hm in Hidle. split; [simpl; lia |].
    split; [intros Hb; congruence |]. split.
    + intros He. exfalso.
      rewrite (readSerial_emergency _ _ He) in Hs. discriminate.
    + intros _.
      destruct Hr as [Hr | [(_ & _ & Hr) | [(Hh & Hw & _) | [(_ & Hr) | (_ & _ & Hr)]]]];
        [left; congruence | congruence | right; auto | congruence | congruence].
Qed.

Lemma X2_witness :
  let m := mkMachine HOMED_WAITING false 5 9 [false; false; true; false] HIGH in
  let t := mkTick (Some "S"%string) true true false false false false false in
  indexed (snd (loop t m)) = [(2, 0)] /\
  (systemState m = EXECUTING_PATTERN \/ (systemState m = HOMED_WAITING /\ start t)) /\
  indexed (snd (loop (withLine "E" t) m)) = [].
Proof.
  intros m t. split; [reflexivity |]. split.
  - apply (proj2 (proj2 (proj2 (X2_one_command_per_idle_iteration m t)))).
    discriminate.
  - apply (proj1 (proj2 (proj2 (X2_one_command_per_idle_iteration m (withLine "E" t))))).
    left; exists "E"%string; split; reflexivity.
Defined.

(** X3: every table read is inside its table and on a selected side: the
    side is below 4 and selected in [sidesToPaint] as the iteration leaves
    it, the index is below the size of that side's table, and the table has
    a command there. *)
Theorem X3_table_reads_in_bounds (m : Machine) (t : Tick) (side i : nat) :
  In (side, i) (indexed (snd (loop t m))) ->
  side < 4 /\
  i < snd (selectPattern side) /\
  (exists cmd, fst (selectPattern side) !! i = Some cmd) /\
  sideSelected (sidesToPaint (fst (loop t m))) side = true.
Proof.
  rewrite loop_eq. cbn [fst snd]. rewrite !indexed_app, readSerial_indexed.
  cbn [polling indexed app]. rewrite stateAction_sides.
  destruct (stateAction_indexed t (fst (readSerial t (set_motorsRunning (busy t) m))))
    as [E | (_ & _ & E & Hs & Hi & Hsel)]; rewrite E; [intros [] |].
  intros [[= <- <-] | []].
  repeat split; auto.
  apply lookup_lt_is_Some. rewrite <- size_is_length. exact Hi.
Qed.

Lemma X3_witness :
  let m := mkMachine EXECUTING_PATTERN false 1 33 [false; true; false; true] HIGH in
  let m' := fst (loop idleTick m) in
  indexed (snd (loop idleTick m)) = [] /\
  indexed (snd (loop idleTick m')) = [(3, 0)] /\
  (3 < 4 /\ 0 < snd (selectPattern 3) /\
   (exists cmd, fst (selectPattern 3) !! 0 = Some cmd) /\
   sideSelected (sidesToPaint (fst (loop idleTick m'))) 3 = true).
Proof.
  intros m m'. split; [reflexivity |]. split; [reflexivity |].
  apply (X3_table_reads_in_bounds m' idleTick 3 0). left; reflexivity.
Defined.

(** ** An invariant of every run *)

Lemma skipSides_wellFormed (m : Machine) :
  wellFormed m -> wellFormed (skipSides 4 m).
Proof.
  intros (Hl & Hs & Hc).
  pose proof (skipSides_spec 4 m) as (_ & _ & E3 & _ & Hle & Hskip & Hsame & Hzero).
  destruct (Nat.eq_dec (currentSide (skipSides 4 m)) (currentSide m)) as [E | NE].
  - rewrite (Hsame E). repeat split; assumption.
  - unfold wellFormed. rewrite E3, Hzero by lia. repeat split; [exact Hl | | lia].
    destruct (Hskip (currentSide (skipSides 4 m) - 1)) as (H4 & _); lia.
Qed.

Lemma readSerial_wellFormed (t : Tick) (m : Machine) :
  wellFormed m -> wellFormed (fst (readSerial t m)).
Proof.
  intros (Hl & Hs & Hc).
  destruct (readSerial_cases t m)
    as [E | [(H & _ & E) | [(H & _ & E) | [(H & E) | [(H & _ & E) |
        (H & sides & prints & E & Hlen & _)]]]]]; rewrite E; cbn [fst];
    unfold wellFormed; simpl; repeat split; try assumption; lia.
Qed.

Lemma stateAction_wellFormed (t : Tick) (m : Machine) :
  wellFormed m -> wellFormed (fst (stateAction t m)).
Proof.
  intros Hwf. rewrite stateAction_cases.
  destruct (systemState m); try exact Hwf.
  - destruct (xHomeRead t); [destruct (xIsRunningLate t) |]; exact Hwf.
  - destruct (yHomeRead t); [destruct (yIsRunningLate t) |]; exact Hwf.
  - destruct (motorsRunning m) eqn:Hm.
    + rewrite processPattern_running by exact Hm. exact Hwf.
    + apply skipSides_wellFormed in Hwf. destruct Hwf as (Hl & Hs & Hc).
      destruct (processPattern_cases m Hm)
        as [(_ & E) | [(Hlt & cmd & Hcmd & E) | (Hlt & _ & E)]]; rewrite E; cbn [fst].
      * repeat split; assumption.
      * destruct (executeCommand_shape cmd (skipSides 4 m)) as (r & evs & Ex & _).
        rewrite Ex. unfold wellFormed; simpl. repeat split; try assumption.
        apply lookup_lt_Some in Hcmd. rewrite size_is_length. lia.
      * unfold wellFormed; simpl. repeat split; try assumption; lia.
  - destruct (motorsRunning m); exact Hwf.
Qed.

(** X4: the machine [setup] leaves is well-formed, every iteration keeps a
    well-formed machine well-formed, and so every machine reached from
    start-up, whatever is read and found on the way, has its four
    selection entries, [currentSide] at most 4 and [currentCommand] at most
    the size of the current table: the counters never run away. *)
Theorem X4_well_formed_invariant (relay : Level) (m : Machine) (t : Tick)
    (ticks : list Tick) :
  wellFormed (booted relay) /\
  (wellFormed m -> wellFormed (fst (loop t m))) /\
  wellFormed (final ticks (booted relay)).
Proof.
  assert (Hboot : wellFormed (booted relay))
    by (unfold wellFormed; simpl; repeat split; lia).
  assert (Hstep : forall t' m', wellFormed m' -> wellFormed (fst (loop t' m'))).
  { intros t' m' Hwf. rewrite loop_eq. cbn [fst].
    apply stateAction_wellFormed, readSerial_wellFormed. exact Hwf. }
  split; [exact Hboot |]. split; [apply Hstep |].
  generalize (booted relay) Hboot. clear Hboot.
  induction ticks as [| t' ticks IH]; intros m0 H0; simpl; [exact H0 |].
  apply IH, Hstep, H0.
Qed.

Lemma X4_witness :
  let m := mkMachine EXECUTING_PATTERN false 3 23 [true; false; false; true] HIGH in
  wellFormed (fst (loop idleTick m)) /\
  wellFormed (fst (loop idleTick (fst (loop idleTick m)))).
Proof.
  intros m.
  assert (Hm : wellFormed m) by (unfold wellFormed; vm_compute; repeat split; lia).
  pose proof (proj1 (proj2 (X4_well_formed_invariant HIGH m idleTick [])) Hm) as H1.
  split; [exact H1 |].
  exact (proj1 (proj2 (X4_well_formed_invariant HIGH _ idleTick [])) H1).
Defined.

(** ** Cycles, for every selection *)

(** X5: for each of the sixteen selections, from [HOMED_WAITING] (whatever
    the cursor was left at), over the iteration that reads "start" and any
    iterations without input after it: the table reads are a prefix of the
    selected sides' tables, in ascending order of side, each from its first
    index to its last; the state depends on the number [n] of iterations
    that found the axes idle only: executing while [n + 1] is below
    [cycleTicks], [CYCLE_COMPLETE] when it is equal, [IDLE] from then on;
    and once the state is not executing every command of the cycle has been
    executed and [CYCLE_COMPLETE] has been entered exactly once.  A cycle
    takes one idle iteration per command, one more per selected side, and
    two to close. *)
Theorem X5_cycle_any_selection (a b c d : bool) (m : Machine) (t : Tick)
    (ticks : list Tick) :
  systemState m = HOMED_WAITING ->
  sidesToPaint m = [a; b; c; d] ->
  start t -> Forall quiet ticks ->
  let sel := [a; b; c; d] in
  let idx := indexed (emitted (t :: ticks) m) in
  let cc := entered CYCLE_COMPLETE (t :: ticks) m in
  let st := systemState (final (t :: ticks) m) in
  let n := countIdle (t :: ticks) in
  idx `prefix_of` cyclePass sel /\
  cc <= 1 /\
  (st = EXECUTING_PATTERN <-> S n < cycleTicks sel) /\
  (st = CYCLE_COMPLETE <-> S n = cycleTicks sel) /\
  (st = IDLE <-> cycleTicks sel <= n) /\
  (cycleTicks sel <= S n -> idx = cyclePass sel /\ cc = 1) /\
  cycleTicks sel =
    length (cyclePass sel) + length (List.filter (fun x => x) sel) + 2.
Proof.
  intros Hw Hsel Hs Hq sel idx cc st n.
  pose proof (cycle_from_start a b c d m t ticks Hw Hsel Hs Hq) as H.
  fold sel idx cc st n in H. unfold standing in H.
  assert (Hpre : idx `prefix_of` cyclePass sel).
  { destruct H as [(_ & P & _) | [(_ & -> & _) | (_ & -> & _)]]; [exact P | |];
      reflexivity. }
  split; [exact Hpre |].
  split; [destruct H as [(_ & _ & -> & _) | [(_ & _ & -> & _) | (_ & _ & -> & _)]]; lia |].
  split; [| split; [| split; [| split]]].
  - destruct H as [(-> & _ & _ & L) | [(-> & _ & _ & L) | (-> & _ & _ & L)]];
      split; intros; try discriminate; try lia; reflexivity.
  - destruct H as [(-> & _ & _ & L) | [(-> & _ & _ & L) | (-> & _ & _ & L)]];
      split; intros; try discriminate; try lia; reflexivity.
  - destruct H as [(-> & _ & _ & L) | [(-> & _ & _ & L) | (-> & _ & _ & L)]];
      split; intros; try discriminate; try lia; reflexivity.
  - intros Hn.
    destruct H as [(_ & _ & _ & L) | [(_ & I & C & _) | (_ & I & C & _)]]; [lia | |];
      auto.
  - unfold sel. destruct a, b, c, d; reflexivity.
Qed.

Lemma X5_witness :
  let m := mkMachine HOMED_WAITING true 2 11 [true; false; false; true] HIGH in
  let t := mkTick (Some "s"%string) true true false false false false false in
  let moving := mkTick None true true false true false false false in
  let ticks := repeat idleTick 40 ++ [moving] ++ repeat idleTick 19 in
  indexed (emitted (t :: ticks) m) = sidePass 0 ++ sidePass 3 /\
  entered CYCLE_COMPLETE (t :: ticks) m = 1 /\
  systemState (final (t :: ticks) m) = CYCLE_COMPLETE.
Proof.
  intros m t moving ticks.
  assert (Hs : start t) by (right; exists "s"%string; split; reflexivity).
  assert (Hq : Forall quiet ticks) by (repeat constructor).
  pose proof (X5_cycle_any_selection true false false true m t ticks
                eq_refl eq_refl Hs Hq) as (_ & _ & _ & H2 & _ & H4 & _).
  destruct (H4 ltac:(vm_compute; lia)) as (A & B).
  split; [exact A |]. split; [exact B |].
  apply (proj2 H2). vm_compute. reflexivity.
Defined.

(** X6: "start" with no side selected executes nothing: an iteration that
    finds no axis moving passes over the four sides and goes straight to
    [CYCLE_COMPLETE], calling no driver beyond the polling; one that finds
    an axis moving only enters [EXECUTING_PATTERN] with the cursor reset. *)
Theorem X6_start_with_nothing_selected (m : Machine) (t : Tick) :
  systemState m = HOMED_WAITING ->
  sidesToPaint m = [false; false; false; false] ->
  start t ->
  snd (loop t m) = polling /\
  (busy t = false ->
   systemState (fst (loop t m)) = CYCLE_COMPLETE /\ cursor (fst (loop t m)) = (4, 0)) /\
  (busy t = true ->
   systemState (fst (loop t m)) = EXECUTING_PATTERN /\ cursor (fst (loop t m)) = (0, 0)).
Proof.
  intros Hw Hsel Hs. rewrite (loop_start t m Hs Hw), Hsel.
  rewrite loop_eq. change (busy (withoutSerial t)) with (busy t).
  rewrite (readSerial_none (withoutSerial t)) by reflexivity. cbn [fst snd].
  destruct (busy t); (split; [reflexivity |]); split; intros Hb;
    try discriminate; split; reflexivity.
Qed.

Lemma X6_witness :
  let m := mkMachine HOMED_WAITING false 1 5 [false; false; false; false] HIGH in
  let t := mkTick (Some "S"%string) true true false false false false false in
  snd (loop t m) = polling /\
  systemState (fst (loop t m)) = CYCLE_COMPLETE /\ cursor (fst (loop t m)) = (4, 0).
Proof.
  intros m t.
  assert (Hs : start t) by (left; exists "S"%string; split; reflexivity).
  destruct (X6_start_with_nothing_selected m t eq_refl eq_refl Hs) as (A & B & _).
  split; [exact A |]. apply B. reflexivity.
Defined.

Lemma idle_keeps_machine (k : nat) (m : Machine) :
  systemState m = IDLE ->
  set_motorsRunning false (final (repeat idleTick k) m) = set_motorsRunning false m.
Proof.
  revert m; induction k as [| k IH]; intros m Hs; [reflexivity |].
  assert (E : loop idleTick m = (set_motorsRunning false m, polling)).
  { rewrite loop_eq. cbn [fst snd readSerial idleTick serialLine skip].
    rewrite stateAction_cases. change (busy idleTick) with false.
    change (systemState (set_motorsRunning false m)) with (systemState m).
    rewrite Hs. reflexivity. }
  cbn [repeat final]. rewrite E. cbn [fst]. rewrite IH by exact Hs. reflexivity.
Qed.

Lemma cycle_machine (a b c d busy0 : bool) (relay : Level) (ticks : list Tick) :
  Forall quiet ticks ->
  set_motorsRunning false
    (final ticks (mkMachine EXECUTING_PATTERN busy0 0 0 [a; b; c; d] relay)) =
  set_motorsRunning false
    (final (repeat idleTick (countIdle ticks)) (cycleStart [a; b; c; d] relay)).
Proof.
  intros Hq.
  assert (Hn : nonHoming (mkMachine EXECUTING_PATTERN busy0 0 0 [a; b; c; d] relay))
    by (split; discriminate).
  destruct (quiet_run_stutters CYCLE_COMPLETE ticks _ Hq Hn) as (A & _).
  rewrite A.
  change (mkMachine EXECUTING_PATTERN busy0 0 0 [a; b; c; d] relay)
    with (set_motorsRunning busy0 (cycleStart [a; b; c; d] relay)).
  apply final_motorsRunning.
Qed.

Lemma sprayOff_table (a b c d : bool) (n : nat) :
  n <= cycleTicks [a; b; c; d] -> sprayOffCheck [a; b; c; d] n = true.
Proof.
  intros Hn.
  assert (T : forallb (sprayOffCheck [a; b; c; d])
                (seq 0 (S (cycleTicks [a; b; c; d]))) = true)
    by (destruct a, b, c, d; vm_compute; reflexivity).
  rewrite forallb_forall in T. apply T, in_seq. lia.
Qed.

Lemma sprayOff_idle_run (a b c d : bool) (n : nat) :
  sprayOffCheck [a; b; c; d] n = true.
Proof.
  set (sel := [a; b; c; d]). set (N := cycleTicks sel).
  destruct (Nat.le_gt_cases n N) as [Hle | Hgt]; [apply sprayOff_table, Hle |].
  pose proof (sprayOff_table a b c d N (Nat.le_refl _)) as HN.
  pose proof (cycle_idle_run a b c d HIGH N) as Hst.
  fold sel in HN, Hst. unfold standing in Hst.
  destruct Hst as [(_ & _ & _ & H) | [(_ & _ & _ & H) | (Hst & _)]];
    [fold N in H; lia | fold N in H; lia |].
  unfold sprayOffCheck in HN |- *.
  replace n with (N + (n - N)) by lia. rewrite repeat_app, final_app.
  pose proof (idle_keeps_machine (n - N) _ Hst) as K.
  set (mk := final (repeat idleTick (n - N)) _) in *.
  set (mN := final (repeat idleTick N) _) in *.
  change (systemState mk) with (systemState (set_motorsRunning false mk)).
  change (paintRelay mk) with (paintRelay (set_motorsRunning false mk)).
  rewrite K. exact HN.
Qed.

(** X13: a cycle begun with the relay released, and run without input,
    never ends with the sprayer on: for every selection, whenever the
    machine is no longer executing the pattern (in [CYCLE_COMPLETE], or back
    in [IDLE]) the relay pin is at its inactive level. *)
Theorem X13_spray_off_when_cycle_ends (a b c d : bool) (m : Machine) (t : Tick)
    (ticks : list Tick) :
  systemState m = HOMED_WAITING ->
  sidesToPaint m = [a; b; c; d] ->
  paintRelay m = HIGH ->
  start t -> Forall quiet ticks ->
  systemState (final (t :: ticks) m) <> EXECUTING_PATTERN ->
  paintRelay (final (t :: ticks) m) = HIGH.
Proof.
  intros Hw Hsel Hr Hs Hq.
  assert (Hq' : Forall quiet (withoutSerial t :: ticks))
    by (constructor; [reflexivity | exact Hq]).
  pose proof (cycle_machine a b c d (motorsRunning m) HIGH _ Hq') as E.
  cbn [final] in E |- *. rewrite (loop_start t m Hs Hw), Hsel, Hr.
  set (mf := final ticks _) in *.
  change (systemState mf) with (systemState (set_motorsRunning false mf)).
  change (paintRelay mf) with (paintRelay (set_motorsRunning false mf)).
  rewrite E. cbn [systemState paintRelay set_motorsRunning].
  pose proof (sprayOff_idle_run a b c d (countIdle (withoutSerial t :: ticks))) as C.
  unfold sprayOffCheck in C.
  destruct (systemState (final _ _)); intros Hne; try congruence;
    destruct (paintRelay (final _ _)); congruence.
Qed.

Lemma X13_witness :
  let m := mkMachine HOMED_WAITING false 0 0 [false; true; true; false] HIGH in
  let t := mkTick (Some "S"%string) true true false false false false false in
  paintRelay (final (t :: repeat idleTick 60) m) = HIGH.
Proof.
  intros m t.
  assert (Hs : start t) by (left; exists "S"%string; split; reflexivity).
  assert (Hq : Forall quiet (repeat idleTick 60)) by (repeat constructor).
  apply (X13_spray_off_when_cycle_ends false true true false m t _
           eq_refl eq_refl eq_refl Hs Hq).
  vm_compute. discriminate.
Defined.

(** ** Lines that are not commands, and how lines are read *)

Lemma dropSpaces_spaces (ws l : list ascii) :
  (forall c, In c ws -> isspace c = true) -> dropSpaces (ws ++ l) = dropSpaces l.
Proof.
  induction ws as [| w ws IH]; intros H; simpl; [reflexivity |].
  rewrite (H w) by (left; reflexivity). apply IH. intros c Hc. apply H. right; exact Hc.
Qed.

Lemma dropSpaces_app (l l2 : list ascii) :
  dropSpaces l <> [] -> dropSpaces (l ++ l2) = dropSpaces l ++ l2.
Proof.
  induction l as [| c l IH]; simpl; intros H; [contradiction |].
  destruct (isspace c); [apply IH, H | reflexivity].
Qed.

Lemma dropSpaces_nil (l : list ascii) :
  dropSpaces l = [] -> forall c, In c l -> isspace c = true.
Proof.
  induction l as [| a l IH]; simpl; intros H c Hc; [contradiction |].
  destruct (isspace a) eqn:Ha; [| discriminate].
  destruct Hc as [<- | Hc]; [exact Ha | apply IH; assumption].
Qed.

Lemma list_ascii_of_string_app (s1 s2 : string) :
  list_ascii_of_string (String.append s1 s2) =
  list_ascii_of_string s1 ++ list_ascii_of_string s2.
Proof. induction s1 as [| c s1 IH]; simpl; [reflexivity | rewrite IH; reflexivity]. Qed.

(** White space around a line is not seen. *)
Lemma trim_padding (pre line post : string) :
  (forall c, In c (list_ascii_of_string pre) -> isspace c = true) ->
  (forall c, In c (list_ascii_of_string post) -> isspace c = true) ->
  trim (String.append pre (String.append line post)) = trim line.
Proof.
  intros Hpre Hpost. unfold trim. f_equal.
  rewrite !list_ascii_of_string_app.
  set (l := list_ascii_of_string line).
  rewrite (dropSpaces_spaces _ _ Hpre).
  destruct (dropSpaces l) as [| c r] eqn:Hd.
  - pose proof (dropSpaces_nil l Hd) as Hl.
    rewrite (dropSpaces_spaces l) by exact Hl.
    rewrite <- (app_nil_r (list_ascii_of_string post)).
    rewrite (dropSpaces_spaces _ [] Hpost). reflexivity.
  - rewrite dropSpaces_app by (rewrite Hd; discriminate).
    rewrite Hd, rev_app_distr.
    rewrite dropSpaces_spaces; [reflexivity |].
    intros x Hx. apply Hpost, in_rev. exact Hx.
Qed.

(** X7: a line that is empty or all white space, and a one-character line
    whose character is none of H h S s E e R r, do nothing: the machine is
    unchanged, no driver is called, nothing is printed, and the iteration
    is the one that would have run with nothing on the serial port. *)
Theorem X7_unknown_lines_ignored (m : Machine) (t : Tick) (line : string) :
  serialLine t = Some line ->
  (forall c, In c (list_ascii_of_string line) -> isspace c = true) \/
  (exists c, trim line = String c EmptyString /\ ~ In c commandChars) ->
  readSerial t m = (m, []) /\ loop t m = loop (withoutSerial t) m.
Proof.
  intros Hl H.
  assert (G : forall m', readSerial t m' = (m', [])).
  { intros m'. unfold readSerial. rewrite Hl.
    destruct H as [Hws | (c & Ht & Hc)].
    - assert (E : trim line = EmptyString).
      { unfold trim. rewrite <- (app_nil_r (list_ascii_of_string line)).
        rewrite (dropSpaces_spaces _ [] Hws). reflexivity. }
      rewrite E. reflexivity.
    - rewrite Ht. unfold handleInput, singleCommand. cbn [String.length Nat.eqb charAt String.get].
      unfold commandChars in Hc. simpl in Hc.
      repeat match goal with
             | |- context [Ascii.eqb c ?x] =>
                 destruct (Ascii.eqb_spec c x); [exfalso; apply Hc; auto 10 |]
             end.
      reflexivity. }
  split; [apply G | apply loop_withoutSerial, G].
Qed.

Lemma X7_witness :
  let m := mkMachine HOMED_WAITING false 0 0 [true; true; true; true] HIGH in
  let blank := mkTick (Some "  "%string) true true false false false false false in
  let other := mkTick (Some "x"%string) true true false false false false false in
  loop blank m = loop (withoutSerial blank) m /\
  loop other m = loop (withoutSerial other) m.
Proof.
  intros m blank other. split.
  - apply (X7_unknown_lines_ignored m blank "  "%string eq_refl). left.
    intros c Hc. simpl in Hc. destruct Hc as [<- | [<- | []]]; reflexivity.
  - apply (X7_unknown_lines_ignored m other "x"%string eq_refl). right.
    exists "x"%char. split; [reflexivity |].
    unfold commandChars. simpl. intros Hc.
    repeat (destruct Hc as [Hc | Hc]; [discriminate |]). exact Hc.
Defined.

(** X8: a line is read the same with white space before and after it
    (blanks, tabs, the carriage return of a CR-LF ending), and the four
    commands are read the same in lower and in upper case. *)
Theorem X8_lines_trimmed_and_caseless (m : Machine) (t : Tick)
    (pre line post : string) :
  ((forall c, In c (list_ascii_of_string pre) -> isspace c = true) ->
   (forall c, In c (list_ascii_of_string post) -> isspace c = true) ->
   loop (withLine (String.append pre (String.append line post)) t) m =
   loop (withLine line t) m) /\
  loop (withLine "h" t) m = loop (withLine "H" t) m /\
  loop (withLine "s" t) m = loop (withLine "S" t) m /\
  loop (withLine "e" t) m = loop (withLine "E" t) m /\
  loop (withLine "r" t) m = loop (withLine "R" t) m.
Proof.
  split.
  - intros Hpre Hpost. rewrite !loop_eq.
    change (busy (withLine ?l t)) with (busy t).
    assert (E : forall m', readSerial (withLine (String.append pre
                             (String.append line post)) t) m' =
                           readSerial (withLine line t) m').
    { intros m'. unfold readSerial. cbn [withLine serialLine].
      rewrite (trim_padding pre line post Hpre Hpost). reflexivity. }
    rewrite E. reflexivity.
  - repeat split; rewrite !loop_eq; reflexivity.
Qed.

Lemma X8_witness :
  let m := mkMachine IDLE false 0 0 [true; true; true; true] HIGH in
  let cr := String "013"%char EmptyString in
  loop (withLine (String.append " " (String.append "H" cr)) idleTick) m =
  loop (withLine "H" idleTick) m.
Proof.
  intros m cr.
  apply (proj1 (X8_lines_trimmed_and_caseless m idleTick " " "H" cr)).
  - intros c [<- | []]; reflexivity.
  - intros c [<- | []]; reflexivity.
Defined.

(** ** Homing, from end to end *)

Lemma loop_homing_x (t : Tick) (m : Machine) :
  ~ emergency t -> systemState m = HOMING_X ->
  systemState (fst (loop t m)) = (if xHomeRead t then HOMING_X else HOMING_Y) /\
  motion (snd (loop t m)) =
    if xHomeRead t
    then if xIsRunningLate t then [] else [StepperMoveTo AxisX (-1000000)]
    else [StepperSetCurrentPosition AxisX 0].
Proof.
  intros Hn Hs. rewrite loop_eq. cbn [fst snd].
  destruct (readSerial_homing t (set_motorsRunning (busy t) m) Hn (or_introl Hs))
    as (E1 & E2).
  rewrite !motion_app, E2, stateAction_cases, E1.
  change (systemState (set_motorsRunning (busy t) m)) with (systemState m).
  rewrite Hs. destruct (xHomeRead t); [destruct (xIsRunningLate t) |]; simpl;
    rewrite ?E1; auto.
Qed.

Lemma loop_homing_y (t : Tick) (m : Machine) :
  ~ emergency t -> systemState m = HOMING_Y ->
  systemState (fst (loop t m)) = (if yHomeRead t then HOMING_Y else HOMED_WAITING) /\
  motion (snd (loop t m)) =
    if yHomeRead t
    then if yIsRunningLate t then [] else [StepperMoveTo AxisY (-1000000)]
    else [StepperSetCurrentPosition AxisY 0].
Proof.
  intros Hn Hs. rewrite loop_eq. cbn [fst snd].
  destruct (readSerial_homing t (set_motorsRunning (busy t) m) Hn (or_intror Hs))
    as (E1 & E2).
  rewrite !motion_app, E2, stateAction_cases, E1.
  change (systemState (set_motorsRunning (busy t) m)) with (systemState m).
  rewrite Hs. destruct (yHomeRead t); [destruct (yIsRunningLate t) |]; simpl;
    rewrite ?E1; auto.
Qed.

(** While the X sensor reads high the machine stays in [HOMING_X] and all
    it sends to the axes is the seek of X. *)
Lemma homing_x_seeks (ticks : list Tick) (m : Machine) :
  systemState m = HOMING_X ->
  Forall (fun t => ~ emergency t /\ xHomeRead t = true) ticks ->
  systemState (final ticks m) = HOMING_X /\
  exists n, n <= length ticks /\
    motion (emitted ticks m) = repeat (StepperMoveTo AxisX (-1000000)) n.
Proof.
  intros Hs H; revert m Hs; induction H as [| t ticks (Hn & Hx) _ IH]; intros m Hs.
  - split; [exact Hs |]. exists 0. split; [lia | reflexivity].
  - cbn [final emitted]. destruct (loop_homing_x t m Hn Hs) as (E1 & E2).
    rewrite Hx in E1, E2. destruct (IH _ E1) as (A & n & Hle & B).
    split; [exact A |]. rewrite motion_app, E2, B.
    destruct (xIsRunningLate t);
      [exists n | exists (S n)]; split; simpl; try lia; reflexivity.
Qed.

Lemma homing_y_seeks (ticks : list Tick) (m : Machine) :
  systemState m = HOMING_Y ->
  Forall (fun t => ~ emergency t /\ yHomeRead t = true) ticks ->
  systemState (final ticks m) = HOMING_Y /\
  exists n, n <= length ticks /\
    motion (emitted ticks m) = repeat (StepperMoveTo AxisY (-1000000)) n.
Proof.
  intros Hs H; revert m Hs; induction H as [| t ticks (Hn & Hy) _ IH]; intros m Hs.
  - split; [exact Hs |]. exists 0. split; [lia | reflexivity].
  - cbn [final emitted]. destruct (loop_homing_y t m Hn Hs) as (E1 & E2).
    rewrite Hy in E1, E2. destruct (IH _ E1) as (A & n & Hle & B).
    split; [exact A |]. rewrite motion_app, E2, B.
    destruct (yIsRunningLate t);
      [exists n | exists (S n)]; split; simpl; try lia; reflexivity.
Qed.

(** X9: homing from end to end.  From [HOMING_X], over iterations that
    read no emergency command: while the X sensor reads high, then one
    iteration where it reads low, then while the Y sensor reads high, then
    one iteration where it reads low, the machine ends in [HOMED_WAITING],
    and everything sent to the axes is, in this order: seeks of X, the
    zeroing of X, seeks of Y, the zeroing of Y.  Y gets no command before X
    is zeroed, each axis is zeroed once, and the Y sensor is not looked at
    while homing X. *)
Theorem X9_homing_sequence (m : Machine) (seekX : list Tick) (hitX : Tick)
    (seekY : list Tick) (hitY : Tick) :
  systemState m = HOMING_X ->
  Forall (fun t => ~ emergency t /\ xHomeRead t = true) seekX ->
  ~ emergency hitX -> xHomeRead hitX = false ->
  Forall (fun t => ~ emergency t /\ yHomeRead t = true) seekY ->
  ~ emergency hitY -> yHomeRead hitY = false ->
  let ticks := seekX ++ hitX :: seekY ++ [hitY] in
  systemState (final ticks m) = HOMED_WAITING /\
  exists nx ny, nx <= length seekX /\ ny <= length seekY /\
    motion (emitted ticks m) =
      repeat (StepperMoveTo AxisX (-1000000)) nx ++
      [StepperSetCurrentPosition AxisX 0] ++
      repeat (StepperMoveTo AxisY (-1000000)) ny ++
      [StepperSetCurrentPosition AxisY 0].
Proof.
  intros Hs HsX HnX HxX HsY HnY HyY ticks. subst ticks.
  destruct (homing_x_seeks seekX m Hs HsX) as (A & nx & Hnx & MA).
  destruct (loop_homing_x hitX _ HnX A) as (B & MB). rewrite HxX in B, MB.
  destruct (homing_y_seeks seekY _ B HsY) as (C & ny & Hny & MC).
  destruct (loop_homing_y hitY _ HnY C) as (D & MD). rewrite HyY in D, MD.
  rewrite final_app, emitted_app. cbn [final emitted].
  rewrite final_app, emitted_app. cbn [final emitted].
  split; [exact D |].
  exists nx, ny. split; [exact Hnx |]. split; [exact Hny |].
  rewrite !motion_app, MA, MB, MC, MD, app_nil_r. reflexivity.
Qed.

Lemma X9_witness :
  let m := mkMachine HOMING_X false 0 0 [true; true; true; true] HIGH in
  let seek := mkTick None true true false false false false false in
  let moving := mkTick (Some "12"%string) true false true false false true true in
  let hitX := mkTick None false false false false false false false in
  let hitY := mkTick None true false false false false false false in
  systemState (final ([seek; moving] ++ hitX :: [] ++ [hitY]) m) = HOMED_WAITING.
Proof.
  intros m seek moving hitX hitY.
  assert (Hq : forall t', serialLine t' = None -> ~ emergency t')
    by (intros t' Hq [(l & Hl & _) | (l & Hl & _)]; congruence).
  assert (Hm : ~ emergency moving)
    by (intros [(l & Hl & Ht) | (l & Hl & Ht)]; injection Hl as <-; discriminate).
  apply (X9_homing_sequence m [seek; moving] hitX [] hitY eq_refl).
  - repeat constructor; [apply Hq; reflexivity | exact Hm].
  - apply Hq; reflexivity.
  - reflexivity.
  - constructor.
  - apply Hq; reflexivity.
  - reflexivity.
Defined.

(** ** The relay, the cursor and the axes over one iteration *)

Lemma readSerial_keeps_released (t : Tick) (m : Machine) :
  paintRelay m = HIGH -> paintRelay (fst (readSerial t m)) = HIGH.
Proof.
  intros Hr.
  destruct (readSerial_cases t m)
    as [E | [(H & _ & E) | [(H & _ & E) | [(H & E) | [(H & _ & E) |
        (H & sides & prints & E & _)]]]]]; rewrite E; simpl; auto.
Qed.

(** The state-dependent part changes the relay only by executing a
    command: to asserted by one with [sprayOn], to released by a spray-off
    one. *)
Lemma stateAction_relay_cases (t : Tick) (m : Machine) :
  paintRelay (fst (stateAction t m)) = paintRelay m \/
  (systemState m = EXECUTING_PATTERN /\ motorsRunning m = false /\
   exists side i cmd,
     indexed (snd (stateAction t m)) = [(side, i)] /\
     fst (selectPattern side) !! i = Some cmd /\
     ((paintRelay (fst (stateAction t m)) = LOW /\ sprayOn cmd = true) \/
      (paintRelay (fst (stateAction t m)) = HIGH /\ isSprayOff cmd = true))).
Proof.
  rewrite stateAction_cases. destruct (systemState m) eqn:Hs; auto.
  - destruct (xHomeRead t); [destruct (xIsRunningLate t) |]; auto.
  - destruct (yHomeRead t); [destruct (yIsRunningLate t) |]; auto.
  - destruct (motorsRunning m) eqn:Hm.
    + rewrite processPattern_running by exact Hm. auto.
    + pose proof (skipSides_spec 4 m) as (_ & _ & _ & E4 & _).
      destruct (processPattern_cases m Hm)
        as [(_ & E) | [(Hlt & cmd & Hc & E) | (_ & _ & E)]]; rewrite E;
        [left; simpl; exact E4 | | left; simpl; exact E4].
      destruct (executeCommand_shape cmd (skipSides 4 m))
        as (r & evs & Ex & _ & Hi & Hr).
      rewrite Ex. cbn [fst snd]. rewrite indexed_app. cbn [speedSettings indexed app].
      rewrite Hi. simpl paintRelay.
      destruct Hr as [-> | Hr]; [left; exact E4 |].
      right. repeat split; auto. do 3 eexists. repeat split; [exact Hc |].
      destruct Hr as [(-> & Hon) | (-> & Hoff)]; auto.
  - destruct (motorsRunning m); auto.
Qed.

(** X10: the sprayer is turned on by the sequencer only.  An iteration
    that starts with the relay released and ends with it asserted found no
    axis moving, started in [EXECUTING_PATTERN] (or read "start" in
    [HOMED_WAITING]), and executed one table command, one with [sprayOn].
    In [IDLE], while homing, in [ERROR] and in [CYCLE_COMPLETE] the relay
    cannot go on. *)
Theorem X10_relay_asserted_by_sequencer_only (m : Machine) (t : Tick) :
  paintRelay m = HIGH ->
  paintRelay (fst (loop t m)) = LOW ->
  busy t = false /\
  (systemState m = EXECUTING_PATTERN \/ (systemState m = HOMED_WAITING /\ start t)) /\
  exists side i cmd,
    indexed (snd (loop t m)) = [(side, i)] /\
    fst (selectPattern side) !! i = Some cmd /\ sprayOn cmd = true.
Proof.
  intros Hr. rewrite loop_eq. cbn [fst snd].
  rewrite !indexed_app, readSerial_indexed. cbn [polling indexed app].
  assert (Hr1 : paintRelay (fst (readSerial t (set_motorsRunning (busy t) m))) = HIGH)
    by (apply readSerial_keeps_released; exact Hr).
  destruct (readSerial_state t (set_motorsRunning (busy t) m)) as (Hm & Hst).
  change (systemState (set_motorsRunning (busy t) m)) with (systemState m) in Hst.
  change (motorsRunning (set_motorsRunning (busy t) m)) with (busy t) in Hm.
  destruct (stateAction_relay_cases t (fst (readSerial t (set_motorsRunning (busy t) m))))
    as [E | (Hs & Hidle & side & i & cmd & Hi & Hc & Hcase)].
  - intros HL. congruence.
  - intros HL. split; [congruence |]. split.
    + destruct Hst as [Hst | [(_ & _ & Hst) | [(Hh & Hw & _) | [(_ & Hst) | (_ & _ & Hst)]]]];
        [left; congruence | congruence | right; auto | congruence | congruence].
    + exists side, i, cmd. repeat split; auto.
      destruct Hcase as [(_ & Hon) | (HH & _)]; [exact Hon | congruence].
Qed.

Lemma X10_witness :
  let m := mkMachine EXECUTING_PATTERN false 1 0 [false; true; false; true] HIGH in
  paintRelay (fst (loop idleTick m)) = LOW /\
  exists side i cmd,
    indexed (snd (loop idleTick m)) = [(side, i)] /\
    fst (selectPattern side) !! i = Some cmd /\ sprayOn cmd = true.
Proof.
  intros m. split; [reflexivity |].
  apply (X10_relay_asserted_by_sequencer_only m idleTick eq_refl eq_refl).
Defined.

(** X11: the cursor never rewinds within a cycle.  Over any iteration
    other than the one that reads "start" in [HOMED_WAITING], [currentSide]
    does not decrease, and while it stays the same [currentCommand] does
    not decrease either; the emergency command, "reset", "home", selection
    lines and the end of the cycle do not reset it. *)
Theorem X11_cursor_never_rewinds (m : Machine) (t : Tick) :
  ~ (start t /\ systemState m = HOMED_WAITING) ->
  currentSide m <= currentSide (fst (loop t m)) /\
  (currentSide (fst (loop t m)) = currentSide m ->
   currentCommand m <= currentCommand (fst (loop t m))).
Proof.
  intros Hns. rewrite loop_eq. cbn [fst].
  set (m0 := set_motorsRunning (busy t) m).
  assert (E1 : cursor (fst (readSerial t m0)) = cursor m).
  { destruct (readSerial_cases t m0)
      as [E | [(H & _ & E) | [(H & Hw & E) | [(H & E) | [(H & _ & E) |
          (H & sides & prints & E & _)]]]]]; rewrite E; try reflexivity.
    exfalso. apply Hns. split; [exact H | exact Hw]. }
  set (m1 := fst (readSerial t m0)) in *. clearbody m1.
  injection E1 as <- <-.
  rewrite stateAction_cases.
  destruct (systemState m1); try (split; intros; reflexivity || lia).
  - destruct (xHomeRead t); [destruct (xIsRunningLate t) |]; simpl; split; intros; lia.
  - destruct (yHomeRead t); [destruct (yIsRunningLate t) |]; simpl; split; intros; lia.
  - destruct (motorsRunning m1) eqn:Hm.
    + rewrite processPattern_running by exact Hm. split; intros; simpl; lia.
    + pose proof (skipSides_spec 4 m1) as (_ & _ & _ & _ & Hle & _ & Hsame & _).
      destruct (processPattern_cases m1 Hm)
        as [(_ & E) | [(_ & cmd & _ & E) | (_ & _ & E)]]; rewrite E; cbn [fst].
      * simpl. split; [exact Hle |]. intros Heq. rewrite (Hsame Heq). lia.
      * destruct (executeCommand_shape cmd (skipSides 4 m1)) as (r & evs & Ex & _).
        rewrite Ex. simpl. split; [exact Hle |]. intros Heq. rewrite (Hsame Heq). lia.
      * simpl. split; [lia |]. intros Heq. lia.
  - destruct (motorsRunning m1); simpl; split; intros; lia.
Qed.

Lemma X11_witness :
  let m := mkMachine EXECUTING_PATTERN false 1 33 [true; true; false; true] LOW in
  let t := mkTick (Some "e"%string) true true false false false false false in
  cursor (fst (loop idleTick m)) = (2, 0) /\
  currentSide m <= currentSide (fst (loop t m)) /\
  (currentSide (fst (loop t m)) = currentSide m ->
   currentCommand m <= currentCommand (fst (loop t m))).
Proof.
  intros m t. split; [reflexivity |].
  apply (X11_cursor_never_rewinds m t). intros (_ & H). discriminate.
Defined.

Lemma stateAction_motion (t : Tick) (m : Machine) :
  length (motion (snd (stateAction t m))) <= 1.
Proof.
  rewrite stateAction_cases. destruct (systemState m); simpl; try lia.
  - destruct (xHomeRead t); [destruct (xIsRunningLate t) |]; simpl; lia.
  - destruct (yHomeRead t); [destruct (yIsRunningLate t) |]; simpl; lia.
  - destruct (motorsRunning m) eqn:Hm.
    + rewrite processPattern_running by exact Hm. simpl; lia.
    + destruct (processPattern_cases m Hm)
        as [(_ & E) | [(_ & cmd & _ & E) | (_ & _ & E)]]; rewrite E; cbn [snd];
        [simpl; lia | | simpl; lia].
      destruct (executeCommand_shape cmd (skipSides 4 m)) as (r & evs & Ex & Hmo & _).
      rewrite Ex. cbn [snd]. rewrite motion_app. simpl. exact Hmo.
  - destruct (motorsRunning m); simpl; lia.
Qed.

(** X12: one source of axis commands per iteration.  An iteration that
    reads the emergency command sends the axes the three [stop]s and
    nothing else; any other iteration sends them at most one command (a
    seek or a zeroing while homing, a move while executing). *)
Theorem X12_one_axis_command_per_iteration (m : Machine) (t : Tick) :
  (emergency t ->
   motion (snd (loop t m)) =
     [StepperStop AxisX; StepperStop AxisY; StepperStop AxisRotation]) /\
  (~ emergency t -> length (motion (snd (loop t m))) <= 1).
Proof.
  rewrite loop_eq. cbn [snd]. rewrite !motion_app. cbn [polling motion app].
  split.
  - intros He. rewrite (readSerial_emergency _ _ He). reflexivity.
  - intros Hn.
    assert (E : motion (snd (readSerial t (set_motorsRunning (busy t) m))) = []).
    { destruct (readSerial_cases t (set_motorsRunning (busy t) m))
        as [E | [(H & _ & E) | [(H & _ & E) | [(H & E) | [(H & _ & E) |
            (H & sides & prints & E & _ & Hmo & _)]]]]]; rewrite E; auto.
      contradiction. }
    rewrite E. apply stateAction_motion.
Qed.

Lemma X12_witness :
  let m := mkMachine HOMING_Y true 0 0 [true; true; true; true] HIGH in
  let stop := mkTick (Some "E"%string) true true true true false true true in
  motion (snd (loop stop m)) =
    [StepperStop AxisX; StepperStop AxisY; StepperStop AxisRotation] /\
  length (motion (snd (loop idleTick m))) <= 1.
Proof.
  intros m stop. split.
  - apply (proj1 (X12_one_axis_command_per_iteration m stop)).
    left; exists "E"%string; split; reflexivity.
  - apply (proj2 (X12_one_axis_command_per_iteration m idleTick)).
    intros [(l & Hl & _) | (l & Hl & _)]; discriminate.
Defined.

(** ** Without "start", nothing is painted *)

Lemma loop_without_start (m : Machine) (t : Tick) :
  systemState m <> EXECUTING_PATTERN -> ~ start t ->
  indexed (snd (loop t m)) = [] /\
  systemState (fst (loop t m)) <> EXECUTING_PATTERN /\
  (paintRelay m = HIGH -> paintRelay (fst (loop t m)) = HIGH).
Proof.
  intros Hs Hn. rewrite loop_eq. cbn [fst snd].
  rewrite !indexed_app, readSerial_indexed. cbn [polling indexed app].
  destruct (readSerial_state t (set_motorsRunning (busy t) m)) as (_ & Hst).
  change (systemState (set_motorsRunning (busy t) m)) with (systemState m) in Hst.
  assert (H1 : systemState (fst (readSerial t (set_motorsRunning (busy t) m)))
               <> EXECUTING_PATTERN).
  { destruct Hst as [Hst | [(_ & _ & Hst) | [(Hh & _) | [(_ & Hst) | (_ & _ & Hst)]]]];
      congruence. }
  set (m1 := fst (readSerial t (set_motorsRunning (busy t) m))) in *.
  split; [| split].
  - destruct (stateAction_indexed t m1) as [E | (He & _)]; [exact E | contradiction].
  - destruct (stateAction_state t m1)
      as [E | [(_ & _ & E) | [(_ & _ & E) | [(_ & _ & E) | (_ & _ & E)]]]];
      congruence.
  - intros Hr.
    assert (Hr1 : paintRelay m1 = HIGH)
      by (apply readSerial_keeps_released; exact Hr).
    destruct (stateAction_relay_cases t m1) as [E | (He & _)];
      [congruence | contradiction].
Qed.

(** X14: without "start", nothing is painted.  Over any run that begins
    outside [EXECUTING_PATTERN] and reads no "start" line (after an
    emergency stop, for one: through [ERROR], "reset", homing, selection
    lines), no table command is executed, the machine never executes a
    pattern, and a released relay stays released. *)
Theorem X14_nothing_painted_without_start (m : Machine) (ticks : list Tick) :
  systemState m <> EXECUTING_PATTERN ->
  Forall (fun t => ~ start t) ticks ->
  indexed (emitted ticks m) = [] /\
  systemState (final ticks m) <> EXECUTING_PATTERN /\
  (paintRelay m = HIGH -> paintRelay (final ticks m) = HIGH).
Proof.
  intros Hs H; revert m Hs; induction H as [| t ticks Hn _ IH]; intros m Hs.
  - repeat split; auto.
  - cbn [final emitted].
    destruct (loop_without_start m t Hs Hn) as (A & B & C).
    destruct (IH _ B) as (A' & B' & C').
    rewrite indexed_app, A, A'. repeat split; auto.
Qed.

Lemma X14_witness :
  let m := mkMachine EXECUTING_PATTERN false 0 2 [true; true; true; true] LOW in
  let line s := mkTick (Some s) true false false false false false false in
  let ticks := [line "R"; line "H"; line "13"; idleTick]%string in
  let stopped := fst (loop (line "E"%string) m) in
  indexed (emitted ticks stopped) = [] /\
  systemState (final ticks stopped) <> EXECUTING_PATTERN /\
  paintRelay (final ticks stopped) = HIGH.
Proof.
  intros m line ticks stopped.
  assert (Hq : Forall (fun t => ~ start t) ticks).
  { repeat constructor; intros [(l & Hl & Ht) | (l & Hl & Ht)];
      try discriminate; injection Hl as <-; discriminate. }
  destruct (X14_nothing_painted_without_start stopped ticks
              ltac:(discriminate) Hq) as (A & B & C).
  split; [exact A |]. split; [exact B |]. apply C. reflexivity.
Defined.

(** ** A selection line in the middle of a cycle *)

(** X15: clearing the selection while a pattern is executing ends the
    cycle at once.  When an iteration in [EXECUTING_PATTERN] finds no axis
    moving and reads a line of two characters or more with none of the
    digits 1 to 4, it passes over every remaining side and goes to
    [CYCLE_COMPLETE] without executing a command or calling an axis; the
    relay is left as it was, asserted if it was asserted. *)
Theorem X15_clearing_selection_ends_cycle (m : Machine) (t : Tick) (line : string) :
  systemState m = EXECUTING_PATTERN ->
  length (sidesToPaint m) = 4 ->
  serialLine t = Some line ->
  2 <= String.length (trim line) ->
  (forall i, 1 <= i <= 4 -> hasDigit (trim line) i = false) ->
  busy t = false ->
  systemState (fst (loop t m)) = CYCLE_COMPLETE /\
  sidesToPaint (fst (loop t m)) = [false; false; false; false] /\
  indexed (snd (loop t m)) = [] /\
  motion (snd (loop t m)) = [] /\
  paintRelay (fst (loop t m)) = paintRelay m.
Proof.
  intros Hs Hlen Hl H2 Hnone Hb.
  rewrite loop_eq. cbn [fst snd]. rewrite Hb.
  set (m0 := set_motorsRunning false m).
  assert (E : fst (readSerial t m0) =
              set_sidesToPaint [false; false; false; false] m0).
  { unfold readSerial. rewrite Hl, (handleInput_selection (trim line) m0 H2 Hlen).
    rewrite !Hnone by lia. reflexivity. }
  assert (Ev : motion (snd (readSerial t m0)) = [] /\ indexed (snd (readSerial t m0)) = []).
  { unfold readSerial. rewrite Hl.
    destruct (handleInput_selection_shape (trim line) m0 H2)
      as (sides & prints & Eh & _ & Hmo & Hi).
    rewrite Eh. auto. }
  destruct Ev as (Hmo & Hi).
  rewrite !motion_app, !indexed_app, Hmo, Hi, E.
  cbn [polling motion indexed app].
  set (m1 := set_sidesToPaint [false; false; false; false] m0).
  assert (Hidle : motorsRunning m1 = false) by reflexivity.
  assert (Hs1 : systemState m1 = EXECUTING_PATTERN) by exact Hs.
  rewrite stateAction_cases, Hs1.
  pose proof (skipSides_spec 4 m1) as (E1 & _ & E3 & E4 & _).
  destruct (skipSides_exit m1) as [H4 | Hsel].
  - destruct (processPattern_cases m1 Hidle)
      as [(_ & Ep) | [(Hlt & _) | (Hlt & _)]]; [| lia | lia].
    rewrite Ep. cbn [fst snd]. simpl. rewrite E3, E4. auto.
  - exfalso. rewrite E3 in Hsel. unfold sideSelected in Hsel. simpl in Hsel.
    destruct (currentSide (skipSides 4 m1)) as [| [| [| [| k]]]]; discriminate.
Qed.

Lemma X15_witness :
  let m := mkMachine EXECUTING_PATTERN false 0 2 [true; true; true; true] LOW in
  let t := mkTick (Some "00"%string) true true false false false false false in
  systemState (fst (loop t m)) = CYCLE_COMPLETE /\
  indexed (snd (loop t m)) = [] /\
  paintRelay (fst (loop t m)) = LOW.
Proof.
  intros m t.
  destruct (X15_clearing_selection_ends_cycle m t "00"%string eq_refl eq_refl eq_refl
              ltac:(vm_compute; lia)) as (A & _ & B & _ & C).
  - intros i Hi. assert (Hc : i = 1 \/ i = 2 \/ i = 3 \/ i = 4) by lia.
    destruct Hc as [-> | [-> | [-> | ->]]]; reflexivity.
  - reflexivity.
  - split; [exact A |]. split; [exact B | exact C].
Defined.
